(** * Subsection activity tracking: time credit, completion and abuse guards

    A shallow embedding of the tracking design of the learning platform
    (the Python handlers of the activity-tracking document): the two model
    rows [Subsection] and [SubsectionProgress], the completion policy
    [calculate_subsection_completion], the validator [validate_activity],
    the bot detector [detect_bot_activity] and the three endpoints
    [start_subsection_viewing], [subsection_heartbeat] and
    [complete_subsection_viewing], with the [limiter] decorator in front of
    the heartbeat.

    Conventions of the embedding.
    - A [datetime] is a count of microseconds (the resolution of Python's
      datetime); [total_seconds] turns a difference into seconds.
    - Python floats are idealised as exact rationals [Q]: seconds returned
      by [total_seconds], percentages, and the literals 14.9, 15.1, 100.0.
      The one place where rounding can change a verdict, the standard
      deviation that the bot detector compares with 1.0, is not idealised:
      [statistics.stdev] is taken as a parameter.
    - A nullable column is an [option]; Python truthiness of an optional
      integer ([not x], [x or d]) treats both [None] and [0] as false.
    - The ORM session is a finite map of rows keyed by
      (user_id, subsection_id); a handler works on the row it loaded and
      the row reaches the map at [commit]; an exception leaves the map as
      it was.
    - logger.warning and the calls to the aggregate-progress functions are
      recorded, in order, in the [events] of the world. *)

From Stdlib Require Import ZArith QArith Qround Qminmax Qfield List Bool Lia.
From Stdlib Require Import Reals Qreals Lra.
From stdpp Require Import gmap strings list fin_maps.
From Stdlib Require Import Ascii.
From stdpp Require Import pretty.

Close Scope Q_scope.
Close Scope R_scope.
Local Open Scope Z_scope.

(** ** Time and numbers *)

Abbreviation datetime := Z (only parsing).

Definition MICROS : positive := 1000000.

(** [(a - b).total_seconds()] *)
Definition total_seconds (a b : datetime) : Q := (a - b) # MICROS.

(** Python's [int(x)] on a float: truncation toward zero. *)
Definition int (x : Q) : Z := Z.quot (Qnum x) (Zpos (Qden x)).

Definition Qlt_bool (x y : Q) : bool := negb (Qle_bool y x).

(** Python's [min(a, b)]: the first argument unless the second is smaller. *)
Definition py_min (a b : Q) : Q := if Qlt_bool b a then b else a.

(** Truthiness of an optional integer column: [None] and [0] are false. *)
Definition truthy (o : option Z) : bool :=
  match o with
  | Some n => negb (n =? 0)
  | None => false
  end.

(** [o or d] on an optional integer column. *)
Definition or_default (o : option Z) (d : Z) : Z :=
  match o with
  | Some n => if n =? 0 then d else n
  | None => d
  end.

(** ** The two rows *)

Record Subsection := mkSubsection {
  section_id : Z;
  topic_id : Z;                       (* subsection.section.topic_id *)
  required_time_minutes : option Z;   (* Column(Integer, nullable=True) *)
  min_time_seconds : option Z         (* Column(Integer, default=30) *)
}.

Record SessionEntry := mkSessionEntry {
  entry_start : datetime;
  entry_end : datetime;
  entry_duration : Z
}.

Record SubsectionProgress := mkProgress {
  progress_id : Z;
  user_id : Z;
  subsection_id : Z;
  is_viewed : bool;
  viewed_at : option datetime;
  time_spent_seconds : Z;
  last_activity_at : option datetime;
  session_start_at : option datetime;
  is_completed : bool;
  completion_percentage : Q;
  activity_sessions : option (list SessionEntry)
}.

Definition set_session_start_at (v : option datetime) (p : SubsectionProgress) :=
  mkProgress (progress_id p) (user_id p) (subsection_id p) (is_viewed p)
    (viewed_at p) (time_spent_seconds p) (last_activity_at p) v
    (is_completed p) (completion_percentage p) (activity_sessions p).

Definition set_time_spent_seconds (v : Z) (p : SubsectionProgress) :=
  mkProgress (progress_id p) (user_id p) (subsection_id p) (is_viewed p)
    (viewed_at p) v (last_activity_at p) (session_start_at p)
    (is_completed p) (completion_percentage p) (activity_sessions p).

Definition set_last_activity_at (v : option datetime) (p : SubsectionProgress) :=
  mkProgress (progress_id p) (user_id p) (subsection_id p) (is_viewed p)
    (viewed_at p) (time_spent_seconds p) v (session_start_at p)
    (is_completed p) (completion_percentage p) (activity_sessions p).

Definition set_completion_percentage (v : Q) (p : SubsectionProgress) :=
  mkProgress (progress_id p) (user_id p) (subsection_id p) (is_viewed p)
    (viewed_at p) (time_spent_seconds p) (last_activity_at p)
    (session_start_at p) (is_completed p) v (activity_sessions p).

Definition set_activity_sessions (v : option (list SessionEntry))
    (p : SubsectionProgress) :=
  mkProgress (progress_id p) (user_id p) (subsection_id p) (is_viewed p)
    (viewed_at p) (time_spent_seconds p) (last_activity_at p)
    (session_start_at p) (is_completed p) (completion_percentage p) v.

(** The three assignments of the completion branch of the heartbeat:
    [is_completed = True; is_viewed = True; viewed_at = now]. *)
Definition mark_completed (now : datetime) (p : SubsectionProgress) :=
  mkProgress (progress_id p) (user_id p) (subsection_id p) true (Some now)
    (time_spent_seconds p) (last_activity_at p) (session_start_at p)
    true (completion_percentage p) (activity_sessions p).

(** ** Completion policy *)

Definition calculate_subsection_completion
    (progress : SubsectionProgress) (subsection : Subsection) : Q :=
  if negb (truthy (required_time_minutes subsection)) then
    let min_time := or_default (min_time_seconds subsection) 30 in
    if time_spent_seconds progress >=? min_time then 100%Q
    else (inject_Z (time_spent_seconds progress) / inject_Z min_time * 100)%Q
  else
    let required_seconds :=
      match required_time_minutes subsection with
      | Some m => m * 60
      | None => 0
      end in
    let completion :=
      (inject_Z (time_spent_seconds progress) / inject_Z required_seconds * 100)%Q in
    py_min completion 100%Q.

(** ** Effects: warnings, external calls, exceptions *)

(** The five [logger.warning] messages, by their text. *)
Inductive Warning :=
| Too_frequent_requests
| Suspicious_regular_pattern
| Too_many_active_sessions
| Session_too_long
| Bot_like_behavior.

Inductive Event :=
| Log (w : Warning) (user : Z)
| UpdateSectionProgress (user section : Z)   (* update_section_progress *)
| UpdateTopicProgress (user topic : Z).      (* update_topic_progress *)

Definition HTTP_403_FORBIDDEN : Z := 403.
Definition HTTP_404_NOT_FOUND : Z := 404.
Definition HTTP_429_TOO_MANY_REQUESTS : Z := 429.

Inductive Exn :=
| HTTPException (status_code : Z)
| RateLimitExceeded          (* raised by the limiter decorator *)
| NameError
| IndexError.

Record World := mkWorld {
  rows : gmap (Z * Z) SubsectionProgress;
  events : list Event
}.

(** A handler: it may raise, it may touch the rows and it appends events. *)
Definition M (A : Type) : Type := World -> (Exn + A) * World.

Definition ret {A} (a : A) : M A := fun w => (inr a, w).

Definition bind {A B} (m : M A) (k : A -> M B) : M B :=
  fun w =>
    match m w with
    | (inl e, w') => (inl e, w')
    | (inr a, w') => k a w'
    end.

Definition raise {A} (e : Exn) : M A := fun w => (inl e, w).

Definition emit (ev : Event) : M unit :=
  fun w => (inr tt, mkWorld (rows w) (events w ++ [ev])).

Notation "x <- m ;; k" := (bind m (fun x => k))
  (at level 100, m at next level, right associativity).
Notation "m ;;; k" := (bind m (fun _ => k))
  (at level 100, right associativity).

(** Modelled from the spec: [get_subsection_progress], the lookup of the
    row of one (user, subsection) pair; its body is not part of the
    document. *)
Definition get_subsection_progress (user subsection : Z)
    : M (option SubsectionProgress) :=
  fun w => (inr (rows w !! (user, subsection)), w).

(** A fresh row, every column at its declared default. *)
Definition new_progress (new_id user subsection : Z) : SubsectionProgress :=
  mkProgress new_id user subsection false None 0 None None false 0%Q None.

(** Modelled from the spec: [get_or_create_subsection_progress], which
    loads the row or creates it lazily; [new_id] is the primary key the
    store would hand out. The text does not say whether a created row is
    stored at once or at the caller's commit: here it is handed to the
    caller, and [get_or_create_and_add] below is the other reading. The
    one caller commits the row it gets, so the two readings give the same
    start ([start_subsection_viewing_either_reading]). *)
Definition get_or_create_subsection_progress (new_id user subsection : Z)
    : M SubsectionProgress :=
  fun w =>
    match rows w !! (user, subsection) with
    | Some p => (inr p, w)
    | None => (inr (new_progress new_id user subsection), w)
    end.

(** Modelled from the spec: the same helper, storing the row it creates. *)
Definition get_or_create_and_add (new_id user subsection : Z)
    : M SubsectionProgress :=
  fun w =>
    match rows w !! (user, subsection) with
    | Some p => (inr p, w)
    | None =>
        let p := new_progress new_id user subsection in
        (inr p, mkWorld (<[(user, subsection) := p]> (rows w)) (events w))
    end.

(** [session.commit()]: the row the handler holds goes back to the place
    it was loaded from (or, for a created row, to the place of its pair). *)
Definition commit (user subsection : Z) (p : SubsectionProgress) : M unit :=
  fun w => (inr tt, mkWorld (<[(user, subsection) := p]> (rows w)) (events w)).

(** ** Activity validation *)

Definition in_band (x : Q) : bool :=
  Qle_bool (149 # 10) x && Qle_bool x (151 # 10).

(** [recent_intervals] is what [get_recent_activity_intervals] returns and
    [active_sessions] what [count_active_sessions] returns; both helpers
    are queries whose bodies are not part of the document. The result is
    the returned boolean with the row as the call leaves it. *)
Definition validate_activity (progress : SubsectionProgress) (now : datetime)
    (recent_intervals : list Q) (active_sessions : Z)
    : M (bool * SubsectionProgress) :=
  let user := user_id progress in
  let check_sessions : M (bool * SubsectionProgress) :=
    if 3 <? active_sessions then
      emit (Log Too_many_active_sessions user) ;;; ret (false, progress)
    else
      match session_start_at progress with
      | Some start =>
          let session_duration := total_seconds now start in
          if Qlt_bool 7200 session_duration then
            emit (Log Session_too_long user) ;;;
            ret (true, set_session_start_at (Some now) progress)
          else ret (true, progress)
      | None => ret (true, progress)
      end in
  match last_activity_at progress with
  | Some last =>
      let time_diff := total_seconds now last in
      if Qlt_bool time_diff 10 then
        emit (Log Too_frequent_requests user) ;;; ret (false, progress)
      else if in_band time_diff && forallb in_band recent_intervals then
        emit (Log Suspicious_regular_pattern user) ;;; ret (false, progress)
      else check_sessions
  | None => check_sessions
  end.

(** ** Bot detection *)

(** The comprehension
    [[(activities[i+1].created_at - activities[i].created_at).total_seconds()
      for i in range(n)]]; an index out of range raises. *)
Definition created_at_intervals (activities : list datetime) (n : nat)
    : option (list Q) :=
  mapM (fun i =>
          match activities !! S i, activities !! i with
          | Some a, Some b => Some (total_seconds a b)
          | _, _ => None
          end) (seq 0 n).

(** [recent_activities] holds the [created_at] of the rows that
    [get_user_recent_activities(session, user_id, hours=1)] returns. The
    comprehension subscripts the name [activities], which the function
    does not bind: [activities] is the module-level binding of that name,
    [None] when there is none. [statistics_stdev] is the library function
    [statistics.stdev]: it works on floats, with a rounding that the
    document does not fix, and is taken as it comes. *)
Definition detect_bot_activity (statistics_stdev : list Q -> Q)
    (activities : option (list datetime))
    (recent_activities : list datetime) (user : Z) : M bool :=
  if (length recent_activities <? 10)%nat then ret false
  else
    intervals <-
      match activities with
      | None => raise NameError
      | Some acts =>
          match created_at_intervals acts (length recent_activities - 1) with
          | Some l => ret l
          | None => raise IndexError
          end
      end ;;
    let std_dev :=
      if (1 <? length intervals)%nat then statistics_stdev intervals else 0%Q in
    if Qlt_bool std_dev 1 then
      emit (Log Bot_like_behavior user) ;;; ret true
    else ret false.

(** ** The verification marker *)




(** ** Endpoints *)

Record SubsectionSessionResponse := mkSessionResponse {
  resp_session_id : Z;
  resp_subsection_id : Z;
  resp_started_at : option datetime;
  resp_time_spent_seconds : Z;
  resp_completion_percentage : Q
}.

Record HeartbeatResponse := mkHeartbeatResponse {
  hb_time_spent_seconds : Z;
  hb_completion_percentage : Q;
  hb_is_completed : bool;
  next_heartbeat_in_seconds : Z
}.

Definition start_subsection_viewing (new_id user subsection : Z)
    (now : datetime) : M SubsectionSessionResponse :=
  progress <- get_or_create_subsection_progress new_id user subsection ;;
  let progress := set_session_start_at (Some now) progress in
  commit user subsection progress ;;;
  ret (mkSessionResponse (progress_id progress) subsection
         (session_start_at progress) (time_spent_seconds progress)
         (completion_percentage progress)).

(** What one heartbeat request reads from its surroundings: the caller,
    the library's [statistics.stdev], the results of the query helpers,
    the row that [get_subsection] returns, and the two readings of
    [datetime.utcnow()], the first inside [validate_activity] and the
    second in the handler itself. *)
Record HeartbeatCtx := mkHeartbeatCtx {
  ctx_user : Z;
  ctx_subsection_id : Z;
  ctx_stdev : list Q -> Q;
  ctx_activities : option (list datetime);
  ctx_recent_activities : list datetime;
  ctx_recent_intervals : list Q;
  ctx_active_sessions : Z;
  ctx_subsection : Subsection;
  ctx_now_validate : datetime;
  ctx_now : datetime
}.

(** The time credit of one heartbeat, before [int]. *)
Definition time_increment (progress : SubsectionProgress) (now : datetime) : Q :=
  match last_activity_at progress with
  | Some last =>
      let actual_interval := total_seconds now last in
      py_min actual_interval 60%Q
  | None => 15%Q
  end.

Definition subsection_heartbeat (c : HeartbeatCtx) : M HeartbeatResponse :=
  let user := ctx_user c in
  bot <- detect_bot_activity (ctx_stdev c) (ctx_activities c)
           (ctx_recent_activities c) user ;;
  if bot : bool then raise (HTTPException HTTP_403_FORBIDDEN)
  else
    found <- get_subsection_progress user (ctx_subsection_id c) ;;
    match found with
    | None => raise (HTTPException HTTP_404_NOT_FOUND)
    | Some progress =>
        checked <- validate_activity progress (ctx_now_validate c)
                     (ctx_recent_intervals c) (ctx_active_sessions c) ;;
        let '(ok, progress) := checked in
        if negb ok then raise (HTTPException HTTP_429_TOO_MANY_REQUESTS)
        else
          let now := ctx_now c in
          let progress :=
            set_time_spent_seconds
              (time_spent_seconds progress + int (time_increment progress now))
              progress in
          let progress := set_last_activity_at (Some now) progress in
          let subsection := ctx_subsection c in
          let progress :=
            set_completion_percentage
              (calculate_subsection_completion progress subsection) progress in
          progress <-
            (if Qle_bool 100 (completion_percentage progress)
                && negb (is_completed progress)
             then
               emit (UpdateSectionProgress user (section_id subsection)) ;;;
               emit (UpdateTopicProgress user (topic_id subsection)) ;;;
               ret (mark_completed now progress)
             else ret progress) ;;
          commit user (ctx_subsection_id c) progress ;;;
          ret (mkHeartbeatResponse (time_spent_seconds progress)
                 (completion_percentage progress) (is_completed progress) 15)
    end.

(** [now_duration] and [now_end] are the two readings of
    [datetime.utcnow()], for the duration and for the "end" stamp. *)
Definition complete_subsection_viewing (user subsection : Z)
    (now_duration now_end : datetime) : M SubsectionProgress :=
  found <- get_subsection_progress user subsection ;;
  match found with
  | None => raise (HTTPException HTTP_404_NOT_FOUND)
  | Some progress =>
      let progress :=
        match session_start_at progress with
        | Some start =>
            let session_duration := total_seconds now_duration start in
            let sessions :=
              match activity_sessions progress with
              | Some (e :: l) => e :: l
              | _ => []            (* [if not progress.activity_sessions] *)
              end in
            let progress :=
              set_activity_sessions
                (Some (sessions ++ [mkSessionEntry start now_end (int session_duration)]))
                progress in
            set_session_start_at None progress
        | None => progress
        end in
      commit user subsection progress ;;;
      ret progress
  end.

(** ** The rate-limit decorator *)

Record Request := mkRequest {
  client_host : string      (* request.client.host *)
}.

(** slowapi's [get_remote_address]. *)
Definition get_remote_address (r : Request) : string := client_host r.

(** Modelled from the spec: the counting of the [Limiter] class, which
    comes from a library outside the document. A fixed window: the first
    attempt of a key opens a window of [per] microseconds, every attempt in
    the window is counted, and an attempt is admitted while the count is at
    most [amount]. The decorator's two arguments are the document's: the
    key function and the limit. *)
Module Limiter.

Record Limit := mkLimit { amount : Z; per : Z }.

(** The limit string "4/minute". *)
Definition four_per_minute : Limit := mkLimit 4 (60 * Zpos MICROS).

(** Per key: the count of the open window and the time it expires. *)
Definition hit (lim : Limit) (key : string) (t : datetime)
    (st : gmap string (Z * datetime)) : bool * gmap string (Z * datetime) :=
  let count :=
    match st !! key with
    | Some (n, expiry) => if t <? expiry then (n + 1, expiry) else (1, t + per lim)
    | None => (1, t + per lim)
    end in
  (fst count <=? amount lim, <[key := count]> st).

End Limiter.

Record Server := mkServer {
  storage : gmap string (Z * datetime);   (* limiter = Limiter(key_func=...) *)
  world : World
}.

(** [@limiter.limit("4/minute")] around [subsection_heartbeat]: the
    decorator runs first, at its own clock reading [t]. *)
Definition heartbeat_endpoint (request : Request) (t : datetime)
    (c : HeartbeatCtx) (s : Server) : (Exn + HeartbeatResponse) * Server :=
  let '(admitted, st) :=
    Limiter.hit Limiter.four_per_minute (get_remote_address request) t (storage s) in
  if admitted then
    let '(r, w) := subsection_heartbeat c (world s) in (r, mkServer st w)
  else (inl RateLimitExceeded, mkServer st (world s)).

(** ** Sequences of requests *)

Inductive Op :=
| OpStart (new_id user subsection : Z) (now : datetime)
| OpHeartbeat (request : Request) (t : datetime) (c : HeartbeatCtx)
| OpComplete (user subsection : Z) (now_duration now_end : datetime).

(** The outcome of a request with its payload dropped: raised or returned. *)
Definition outcome {A} (r : Exn + A) : option Exn :=
  match r with
  | inl e => Some e
  | inr _ => None
  end.

Definition step (op : Op) (s : Server) : option Exn * Server :=
  match op with
  | OpStart new_id user subsection now =>
      let '(r, w) := start_subsection_viewing new_id user subsection now (world s) in
      (outcome r, mkServer (storage s) w)
  | OpHeartbeat request t c =>
      let '(r, s') := heartbeat_endpoint request t c s in (outcome r, s')
  | OpComplete user subsection now_duration now_end =>
      let '(r, w) :=
        complete_subsection_viewing user subsection now_duration now_end (world s) in
      (outcome r, mkServer (storage s) w)
  end.

Fixpoint run (ops : list Op) (s : Server) : Server :=
  match ops with
  | [] => s
  | op :: ops' => run ops' (snd (step op s))
  end.

(** ** Vocabulary of the properties *)

(** The place of the row a heartbeat works on. *)
Definition key (c : HeartbeatCtx) : Z * Z := (ctx_user c, ctx_subsection_id c).

(** The world after the events [logs]. *)
Definition logged (w : World) (logs : list Event) : World :=
  mkWorld (rows w) (events w ++ logs).

(** The aggregate-progress cascade is the pair of calls
    [update_section_progress], [update_topic_progress]. *)
Definition is_cascade (ev : Event) : bool :=
  match ev with
  | Log _ _ => false
  | UpdateSectionProgress _ _ | UpdateTopicProgress _ _ => true
  end.

Definition is_log (ev : Event) : bool := negb (is_cascade ev).

Definition cascade_of (c : HeartbeatCtx) : list Event :=
  [UpdateSectionProgress (ctx_user c) (section_id (ctx_subsection c));
   UpdateTopicProgress (ctx_user c) (topic_id (ctx_subsection c))].

(** The events a request appends to a world that held [before]. *)
Definition new_events (before after : World) : list Event :=
  drop (length (events before)) (events after).

Definition step_events (op : Op) (s : Server) : list Event :=
  new_events (world s) (world (snd (step op s))).

Definition is_heartbeat (op : Op) : bool :=
  match op with
  | OpHeartbeat _ _ _ => true
  | _ => false
  end.

Definition targets (op : Op) (k : Z * Z) : bool :=
  match op with
  | OpHeartbeat _ _ c => bool_decide (key c = k)
  | _ => false
  end.

(** Whether the request [op], run from [s], is a heartbeat of the row at
    [k] that invokes the cascade. *)
Definition fires (k : Z * Z) (op : Op) (s : Server) : bool :=
  targets op k && existsb is_cascade (step_events op s).

(** How many of the requests [ops], run from [s], are heartbeats of the row
    at [k] that invoke the cascade. *)
Fixpoint cascade_count (k : Z * Z) (ops : list Op) (s : Server) : nat :=
  match ops with
  | [] => 0%nat
  | op :: ops' =>
      ((if fires k op s then 1 else 0)
       + cascade_count k ops' (snd (step op s)))%nat
  end.

(** Whether the row at [k] exists and is completed. *)
Definition completed_at (k : Z * Z) (s : Server) : bool :=
  match rows (world s) !! k with
  | Some p => is_completed p
  | None => false
  end.

(** The clock does not run backwards between the two readings of one
    heartbeat. *)
Definition clock_monotone (op : Op) : Prop :=
  match op with
  | OpHeartbeat _ _ c => ctx_now_validate c <= ctx_now c
  | _ => True
  end.

(** The closed sessions of a row, oldest first. *)
Definition history (p : SubsectionProgress) : list SessionEntry :=
  match activity_sessions p with
  | Some l => l
  | None => []
  end.

(** The first two checks of the validator pass: the row has no last
    activity, or the interval is at least ten seconds and not, together
    with every recent interval, inside the 14.9 to 15.1 band. *)
Definition passes_interval_checks (p : SubsectionProgress) (now : datetime)
    (recent_intervals : list Q) : bool :=
  match last_activity_at p with
  | Some l =>
      negb (Qlt_bool (total_seconds now l) 10)
      && negb (in_band (total_seconds now l) && forallb in_band recent_intervals)
  | None => true
  end.


(** *** The accepted heartbeat in pieces

    The row an accepted heartbeat computes from the row [pv] that the
    validator passed, up to the recomputed percentage; whether that
    heartbeat crosses into completion; the row it commits; the response it
    returns. *)

Definition credited (c : HeartbeatCtx) (pv : SubsectionProgress) : SubsectionProgress :=
  let p1 :=
    set_last_activity_at (Some (ctx_now c))
      (set_time_spent_seconds
         (time_spent_seconds pv + int (time_increment pv (ctx_now c))) pv) in
  set_completion_percentage
    (calculate_subsection_completion p1 (ctx_subsection c)) p1.

Definition crosses (c : HeartbeatCtx) (pv : SubsectionProgress) : bool :=
  Qle_bool 100 (completion_percentage (credited c pv)) && negb (is_completed pv).

Definition settled (c : HeartbeatCtx) (pv : SubsectionProgress) : SubsectionProgress :=
  if crosses c pv then mark_completed (ctx_now c) (credited c pv) else credited c pv.

Definition response_of (p : SubsectionProgress) : HeartbeatResponse :=
  mkHeartbeatResponse (time_spent_seconds p) (completion_percentage p)
    (is_completed p) 15.

(** *** The rate limit *)

Definition limited (o : option Exn) : bool :=
  match o with
  | Some RateLimitExceeded => true
  | _ => false
  end.

Definition from_host (host : string) (op : Op) : bool :=
  match op with
  | OpHeartbeat request _ _ => bool_decide (get_remote_address request = host)
  | _ => false
  end.

(** How many heartbeats from [host] among [ops], run from [s], get past
    the limiter. *)
Fixpoint admitted_from (host : string) (ops : list Op) (s : Server) : nat :=
  match ops with
  | [] => 0%nat
  | op :: ops' =>
      ((if from_host host op && negb (limited (fst (step op s))) then 1 else 0)
       + admitted_from host ops' (snd (step op s)))%nat
  end.

(** The heartbeat attempts of [ops] fall in the 60 seconds from [t0]. *)
Definition in_window (t0 : datetime) (op : Op) : Prop :=
  match op with
  | OpHeartbeat _ t _ => t0 <= t < t0 + 60 * 1000000
  | _ => True
  end.

(** The heartbeat attempts of [ops] come before [expiry]. *)
Definition before (expiry : datetime) (op : Op) : Prop :=
  match op with
  | OpHeartbeat _ t _ => t < expiry
  | _ => True
  end.

(** At [t0] the limiter holds no open window for [host]. *)
Definition window_closed (host : string) (t0 : datetime) (s : Server) : Prop :=
  match storage s !! host with
  | Some (_, expiry) => expiry <= t0
  | None => True
  end.

(** ** The design text, word for word

    Some sentences of the design text say something else than the
    handlers do; they are written down here as the text has them, to be
    compared with the handlers. *)

Definition clamp (x lo hi : Q) : Q :=
  if Qlt_bool x lo then lo else if Qlt_bool hi x then hi else x.

(** The completion percentage: the recommended time counts as set whenever
    it is not null, and the floor falls back to 30 only when it is null. *)
Definition completion_by_the_text (t : Z) (required min : option Z) : Q :=
  match required with
  | None =>
      let m := match min with Some m => m | None => 30 end in
      if m <=? t then 100%Q else (100 * inject_Z t / inject_Z m)%Q
  | Some r => Qmin 100 (100 * inject_Z t / inject_Z (r * 60))%Q
  end.

(** The time credit of a heartbeat. *)
Definition credit_by_the_text (last : option datetime) (now : datetime) : Q :=
  match last with
  | Some l => clamp (total_seconds now l) 0 60
  | None => 15%Q
  end.






(** The heartbeat attempts of one (user, subsection) pair among [attempts]:
    what the limiter would count if it were keyed by the pair. *)
Definition attempts_of_pair (user subsection : Z) (attempts : list Op) : nat :=
  length (List.filter (fun op => targets op (user, subsection)) attempts).

(** ** Concrete rows, worlds and requests *)

Definition policy_floor_only : Subsection := mkSubsection 1 1 None None.
Definition policy_floor_zero : Subsection := mkSubsection 1 1 None (Some 0).
Definition policy_five_minutes : Subsection := mkSubsection 1 1 (Some 5) None.

(** The row of user 1 on subsection 1 with [t] seconds spent. *)
Definition row_with_time (t : Z) : SubsectionProgress :=
  set_time_spent_seconds t (new_progress 1 1 1).

(** The row of user 1 on subsection 1, its session open since time 0. *)
Definition row_active (last : option datetime) : SubsectionProgress :=
  set_last_activity_at last (set_session_start_at (Some 0) (new_progress 1 1 1)).

(** The world that holds the one row [p] and has seen no event. *)
Definition world_of (p : SubsectionProgress) : World :=
  mkWorld {[ (user_id p, subsection_id p) := p ]} [].

Definition empty_server : Server := mkServer ∅ (mkWorld ∅ []).

(** A reading of [statistics.stdev] for the requests below: none of them
    reaches the call except on equally spaced activities, where the sample
    standard deviation is 0 whatever the rounding. *)
Definition stdev_of_equal_samples : list Q -> Q := fun _ => 0%Q.

(** A heartbeat of the given pair with no history of activities, no other
    session, the default policy and one clock reading. *)
Definition ctx_of_pair (user subsection : Z) (now : datetime) : HeartbeatCtx :=
  mkHeartbeatCtx user subsection stdev_of_equal_samples None [] [] 0
    policy_floor_only now now.

(** The same for user 1 on subsection 1, with its two clock readings. *)
Definition ctx_at (now_validate now : datetime) : HeartbeatCtx :=
  mkHeartbeatCtx 1 1 stdev_of_equal_samples None [] [] 0 policy_floor_only
    now_validate now.

(** Ten activities, one every 15 seconds sharp. *)
Definition regular_activities : list datetime :=
  map (fun i => 15000000 * Z.of_nat i) (seq 0 10).



(** User 1 opens subsection 1 at time 0 and closes it a minute later. *)
Definition world_after_complete : World :=
  snd (complete_subsection_viewing 1 1 60000000 60000000
         (snd (start_subsection_viewing 1 1 1 0 (mkWorld ∅ [])))).

Definition shared_host : Request := mkRequest "10.0.0.1".

(** Four heartbeats of user 1 on subsection 1, one second apart, all from
    one address. *)
Definition four_from_one_host : list Op :=
  [OpHeartbeat shared_host 0 (ctx_of_pair 1 1 0);
   OpHeartbeat shared_host 1000000 (ctx_of_pair 1 1 1000000);
   OpHeartbeat shared_host 2000000 (ctx_of_pair 1 1 2000000);
   OpHeartbeat shared_host 3000000 (ctx_of_pair 1 1 3000000)].

(** User 1 opens subsection 1, sends three heartbeats 20 seconds apart and
    closes the page. *)
Definition one_visit : list Op :=
  [OpStart 1 1 1 0;
   OpHeartbeat shared_host 20000000 (ctx_at 20000000 20000000);
   OpHeartbeat shared_host 40000000 (ctx_at 40000000 40000000);
   OpHeartbeat shared_host 60000000 (ctx_at 60000000 60000000);
   OpComplete 1 1 61000000 61000000].

(** ** Vocabulary of the further properties *)

(** The time at which a policy counts a row as complete: the recommended
    time in seconds when there is one, the floor otherwise. *)
Definition completion_threshold (s : Subsection) : Z :=
  if truthy (required_time_minutes s) then
    match required_time_minutes s with
    | Some m => m * 60
    | None => 0
    end
  else or_default (min_time_seconds s) 30.

Definition required_not_negative (s : Subsection) : Prop :=
  match required_time_minutes s with
  | Some r => 0 <= r
  | None => True
  end.

(** The session of the row has been open for more than 7200 seconds. *)
Definition session_expired (p : SubsectionProgress) (now : datetime) : bool :=
  match session_start_at p with
  | Some start => Qlt_bool 7200 (total_seconds now start)
  | None => false
  end.

(** The pair a request is for. *)
Definition op_key (op : Op) : Z * Z :=
  match op with
  | OpStart _ user subsection _ => (user, subsection)
  | OpHeartbeat _ _ c => key c
  | OpComplete user subsection _ _ => (user, subsection)
  end.

(** How many of the requests [ops], run from [s], are heartbeats of the row
    at [k] that return a response. *)
Fixpoint accepted_heartbeats (k : Z * Z) (ops : list Op) (s : Server) : nat :=
  match ops with
  | [] => 0%nat
  | op :: ops' =>
      ((if targets op k && negb (bool_decide (is_Some (fst (step op s))))
        then 1 else 0)
       + accepted_heartbeats k ops' (snd (step op s)))%nat
  end.

(** How many of the requests [ops] are completes of the pair [k]. *)
Definition completes_of (k : Z * Z) (ops : list Op) : nat :=
  length (List.filter
            (fun op => match op with
                       | OpComplete _ _ _ _ => bool_decide (op_key op = k)
                       | _ => false
                       end) ops).

(** A policy whose recommended time was entered as minus five minutes. *)
Definition policy_negative_minutes : Subsection := mkSubsection 1 1 (Some (-5)) None.


(** The row as the validator leaves it when it accepts. *)
Definition rotated (p : SubsectionProgress) (now : datetime) : SubsectionProgress :=
  if session_expired p now then set_session_start_at (Some now) p else p.

(** ** The frontend: the time display and the heartbeat timer *)

(** [Number.prototype.toString] on a count of seconds: a non-negative
    integer in the range where JavaScript numbers are exact and print as
    plain decimal digits. *)
Definition toString (n : N) : string := pretty n.

(** [n] copies of the character [pad]. *)
Fixpoint repeat_char (n : nat) (pad : ascii) : string :=
  match n with
  | O => EmptyString
  | S n' => String pad (repeat_char n' pad)
  end.

(** [String.prototype.padStart] with a one-character pad. *)
Definition padStart (target : nat) (pad : ascii) (s : string) : string :=
  repeat_char (target - String.length s) pad +:+ s.

Definition formatTime (seconds : N) : string :=
  let minutes := (seconds / 60)%N in
  let secs := (seconds mod 60)%N in
  toString minutes +:+ ":" +:+ padStart 2 "0" (toString secs).

(** The two refs of [useSubsectionTracking] that the visibility handler
    reads and writes, with the part of the runtime it acts on: the interval
    timers that are still armed and the next handle [setInterval] will
    return (handles are positive and never reused, so a handle is always
    truthy). *)
Record Tracking := mkTracking {
  isTracking : bool;
  heartbeatInterval : option positive;
  armed : gset positive;
  next_handle : positive
}.

(** [handleVisibilityChange], [hidden] being [document.hidden]. *)
Definition handleVisibilityChange (hidden : bool) (st : Tracking) : Tracking :=
  if hidden then
    match heartbeatInterval st with
    | Some handle =>                       (* clearInterval(heartbeatInterval.value) *)
        mkTracking (isTracking st) (heartbeatInterval st)
          (armed st ∖ {[handle]}) (next_handle st)
    | None => st
    end
  else
    if isTracking st && negb (bool_decide (is_Some (heartbeatInterval st))) then
      mkTracking (isTracking st) (Some (next_handle st))
        ({[next_handle st]} ∪ armed st) (Pos.succ (next_handle st))
    else st.

(** A page that is tracking, its heartbeat timer armed under handle 7. *)
Definition tracking_page : Tracking := mkTracking true (Some 7%positive) {[7%positive]} 8.

(** The string holds no colon. *)
Fixpoint no_colon (s : string) : Prop :=
  match s with
  | EmptyString => True
  | String a s' => a <> ":"%char /\ no_colon s'
  end.

(** The numbers 0 to 59. *)
Definition below_sixty : list N := map N.of_nat (seq 0 60).

(** * Properties *)

(** ** Rationals, truncation, truthiness *)

Lemma Qlt_bool_iff (x y : Q) : Qlt_bool x y = true <-> (x < y)%Q.
Proof.
  unfold Qlt_bool. rewrite negb_true_iff, <- not_true_iff_false, Qle_bool_iff.
  split; [apply Qnot_le_lt | apply Qlt_not_le].
Qed.

Lemma Qlt_bool_false_iff (x y : Q) : Qlt_bool x y = false <-> (y <= x)%Q.
Proof.
  unfold Qlt_bool. rewrite negb_false_iff. apply Qle_bool_iff.
Qed.

Lemma py_min_Qmin (a b : Q) : (py_min a b == Qmin b a)%Q.
Proof.
  unfold py_min. destruct (Qlt_bool b a) eqn:E.
  - apply Qlt_bool_iff in E. symmetry. apply Q.min_l. now apply Qlt_le_weak.
  - apply Qlt_bool_false_iff in E. symmetry. now apply Q.min_r.
Qed.

Lemma or_default_nonzero (o : option Z) (d : Z) : d <> 0 -> or_default o d <> 0.
Proof.
  intros Hd. destruct o as [n|]; simpl; [|exact Hd].
  destruct (Z.eqb_spec n 0); [exact Hd | assumption].
Qed.

Lemma truthy_Some (r : Z) : r <> 0 -> truthy (Some r) = true.
Proof. intros H. simpl. now apply negb_true_iff, Z.eqb_neq. Qed.

Lemma inject_Z_nonzero (z : Z) : z <> 0 -> ~ (inject_Z z == 0)%Q.
Proof. intros H E. apply H. unfold Qeq in E. simpl in E. lia. Qed.

(** ** C1: the completion percentage *)

(** C1, as the design text words it, fails: a floor of 0 is a set floor by
    the text (every time spent reaches it), while the code's [or 30] reads
    0 as unset; ten seconds against a floor of 0 give a third of 100. *)
Lemma completion_by_the_text_fails :
  ~ (forall p s,
       (calculate_subsection_completion p s ==
        completion_by_the_text (time_spent_seconds p)
          (required_time_minutes s) (min_time_seconds s))%Q).
Proof.
  intros H.
  specialize (H (row_with_time 10) policy_floor_zero).
  vm_compute in H. discriminate H.
Qed.

(** C1 (amended): the completion percentage depends on the time spent and
    the policy only. When the recommended time is null or 0, the floor is
    [min_time_seconds], or 30 when that is null or 0, and the result is
    100 once the time spent reaches the floor and 100 * t / floor below it.
    When the recommended time is a non-zero number of minutes [r], the
    result is min(100, 100 * t / (r * 60)). *)
Theorem completion_policy (p : SubsectionProgress) (s : Subsection) :
  let t := time_spent_seconds p in
  (truthy (required_time_minutes s) = false ->
   let m := or_default (min_time_seconds s) 30 in
   (m <= t -> (calculate_subsection_completion p s == 100)%Q) /\
   (t < m ->
    (calculate_subsection_completion p s == 100 * inject_Z t / inject_Z m)%Q)) /\
  (forall r, required_time_minutes s = Some r -> r <> 0 ->
     (calculate_subsection_completion p s
      == Qmin 100 (100 * inject_Z t / inject_Z (r * 60)))%Q) /\
  (forall p', time_spent_seconds p' = t ->
     calculate_subsection_completion p' s = calculate_subsection_completion p s).
Proof.
  cbv zeta. repeat split.
  - intros Hle. unfold calculate_subsection_completion. rewrite H. simpl.
    destruct (Z.geb_spec (time_spent_seconds p) (or_default (min_time_seconds s) 30));
      [reflexivity | lia].
  - intros Hlt. unfold calculate_subsection_completion. rewrite H. simpl.
    destruct (Z.geb_spec (time_spent_seconds p) (or_default (min_time_seconds s) 30));
      [lia |].
    field. apply inject_Z_nonzero, or_default_nonzero. discriminate.
  - intros r Hr Hnz. unfold calculate_subsection_completion.
    rewrite Hr, (truthy_Some r Hnz). simpl negb. cbv iota.
    rewrite py_min_Qmin. apply Q.min_compat; [reflexivity |].
    field. apply inject_Z_nonzero. lia.
  - intros p' Ht. unfold calculate_subsection_completion. now rewrite Ht.
Qed.

Lemma completion_policy_witness :
  (calculate_subsection_completion (row_with_time 15) policy_floor_only
   == 100 * inject_Z 15 / inject_Z 30)%Q /\
  (calculate_subsection_completion (row_with_time 600) policy_five_minutes
   == Qmin 100 (100 * inject_Z 600 / inject_Z (5 * 60)))%Q.
Proof.
  split.
  - apply (completion_policy (row_with_time 15) policy_floor_only);
      [reflexivity | simpl; lia].
  - apply (completion_policy (row_with_time 600) policy_five_minutes) with (r := 5);
      [reflexivity | lia].
Defined.

(** The worked examples of the design text: floor 30 and no recommended
    time, 15 seconds give 50 and 30 seconds give 100; five recommended
    minutes, 150 seconds give 50 and 600 seconds give 100, not 200. *)
Example completion_examples :
  (calculate_subsection_completion (row_with_time 15) policy_floor_only == 50)%Q /\
  (calculate_subsection_completion (row_with_time 30) policy_floor_only == 100)%Q /\
  (calculate_subsection_completion (row_with_time 150) policy_five_minutes == 50)%Q /\
  (calculate_subsection_completion (row_with_time 600) policy_five_minutes == 100)%Q.
Proof. repeat split. Qed.

(** ** What the handlers do to the world *)

Lemma world_eta (w : World) : mkWorld (rows w) (events w) = w.
Proof. now destruct w. Qed.

Ltac unfold_M :=
  unfold get_subsection_progress, get_or_create_subsection_progress, commit,
    bind, ret, raise, emit in *.

(** The bot detector logs at most its own warning and leaves the rows. *)
Lemma detect_bot_activity_effect sd acts recent user (w : World) :
  exists r logs,
    detect_bot_activity sd acts recent user w
    = (r, mkWorld (rows w) (events w ++ logs)) /\
    ((r = inr true /\ logs = [Log Bot_like_behavior user]) \/
     (r <> inr true /\ logs = [])).
Proof.
  unfold detect_bot_activity. unfold_M.
  destruct (length recent <? 10)%nat.
  { exists (inr false), []. rewrite app_nil_r, world_eta. split; [done | right]. done. }
  destruct acts as [acts|].
  2:{ exists (inl NameError), []. rewrite app_nil_r, world_eta. split; [done | right]. done. }
  destruct (created_at_intervals acts (length recent - 1)) as [l|].
  2:{ exists (inl IndexError), []. rewrite app_nil_r, world_eta. split; [done | right]. done. }
  destruct (Qlt_bool _ 1).
  - exists (inr true), [Log Bot_like_behavior user]. split; [done | left]. done.
  - exists (inr false), []. rewrite app_nil_r, world_eta. split; [done | right]. done.
Qed.

(** The validator returns a boolean, never raises, logs only warnings and
    leaves the rows of the world; a row it rejects is the row it was given,
    and a row it passes is at most rotated. *)
Lemma validate_activity_effect p now ri act (w : World) :
  exists ok p' logs,
    validate_activity p now ri act w
    = (inr (ok, p'), mkWorld (rows w) (events w ++ logs)) /\
    forallb is_log logs = true /\
    (ok = false -> p' = p) /\
    (ok = true ->
     (p' = p \/ p' = set_session_start_at (Some now) p) /\
     forall l, last_activity_at p = Some l -> (10 <= total_seconds now l)%Q).
Proof.
  assert (Hsess : forall (Hlast : forall l, last_activity_at p = Some l ->
                                  (10 <= total_seconds now l)%Q),
    exists ok p' logs,
      (if 3 <? act
       then emit (Log Too_many_active_sessions (user_id p)) ;;; ret (false, p)
       else match session_start_at p with
            | Some start =>
                if Qlt_bool 7200 (total_seconds now start)
                then emit (Log Session_too_long (user_id p)) ;;;
                     ret (true, set_session_start_at (Some now) p)
                else ret (true, p)
            | None => ret (true, p)
            end) w
      = (inr (ok, p'), mkWorld (rows w) (events w ++ logs)) /\
      forallb is_log logs = true /\
      (ok = false -> p' = p) /\
      (ok = true ->
       (p' = p \/ p' = set_session_start_at (Some now) p) /\
       forall l, last_activity_at p = Some l -> (10 <= total_seconds now l)%Q)).
  { intros Hlast. unfold_M. destruct (3 <? act).
    - exists false, p, [Log Too_many_active_sessions (user_id p)].
      repeat split; try done.
    - destruct (session_start_at p) as [start|].
      + destruct (Qlt_bool 7200 (total_seconds now start)).
        * exists true, (set_session_start_at (Some now) p),
            [Log Session_too_long (user_id p)].
          repeat split; auto; done.
        * exists true, p, []. rewrite app_nil_r, world_eta.
          repeat split; auto; done.
      + exists true, p, []. rewrite app_nil_r, world_eta.
        repeat split; auto; done. }
  unfold validate_activity. destruct (last_activity_at p) as [last|] eqn:Elast.
  - destruct (Qlt_bool (total_seconds now last) 10) eqn:Efreq.
    + unfold_M. exists false, p, [Log Too_frequent_requests (user_id p)].
      repeat split; try done.
    + destruct (in_band (total_seconds now last) && forallb in_band ri).
      * unfold_M. exists false, p, [Log Suspicious_regular_pattern (user_id p)].
        repeat split; try done.
      * apply Hsess. intros l [= <-]. now apply Qlt_bool_false_iff.
  - apply Hsess. intros l [=].
Qed.

(** The four ways through [subsection_heartbeat]. *)

Lemma heartbeat_flagged (c : HeartbeatCtx) (w w1 : World) r :
  detect_bot_activity (ctx_stdev c) (ctx_activities c) (ctx_recent_activities c) (ctx_user c) w
  = (r, w1) ->
  r <> inr false ->
  subsection_heartbeat c w
  = (inl match r with
         | inl e => e
         | inr _ => HTTPException HTTP_403_FORBIDDEN
         end, w1).
Proof.
  intros E Hr. unfold subsection_heartbeat. unfold bind at 1. rewrite E.
  destruct r as [e | [|]]; [reflexivity | reflexivity | congruence].
Qed.

Lemma heartbeat_no_row (c : HeartbeatCtx) (w : World) :
  detect_bot_activity (ctx_stdev c) (ctx_activities c) (ctx_recent_activities c) (ctx_user c) w
  = (inr false, w) ->
  rows w !! key c = None ->
  subsection_heartbeat c w = (inl (HTTPException HTTP_404_NOT_FOUND), w).
Proof.
  intros E Hrow. unfold subsection_heartbeat. unfold bind at 1. rewrite E.
  unfold bind at 1, get_subsection_progress at 1. unfold key in Hrow.
  rewrite Hrow. reflexivity.
Qed.

Lemma heartbeat_validated (c : HeartbeatCtx) (w w1 : World) p pv (ok : bool) :
  detect_bot_activity (ctx_stdev c) (ctx_activities c) (ctx_recent_activities c) (ctx_user c) w
  = (inr false, w) ->
  rows w !! key c = Some p ->
  validate_activity p (ctx_now_validate c) (ctx_recent_intervals c)
    (ctx_active_sessions c) w = (inr (ok, pv), w1) ->
  subsection_heartbeat c w
  = if ok then
      (inr (response_of (settled c pv)),
       mkWorld (<[key c := settled c pv]> (rows w1))
         (events w1 ++ (if crosses c pv then cascade_of c else [])))
    else (inl (HTTPException HTTP_429_TOO_MANY_REQUESTS), w1).
Proof.
  intros E Hrow Eval. unfold subsection_heartbeat. unfold bind at 1. rewrite E.
  unfold bind at 1, get_subsection_progress at 1. unfold key in Hrow.
  rewrite Hrow. unfold bind at 1. rewrite Eval.
  destruct ok; simpl negb; cbv iota; [| reflexivity].
  fold (credited c pv).
  change (Qle_bool 100 (completion_percentage (credited c pv))
          && negb (is_completed (credited c pv)))
    with (crosses c pv).
  unfold settled, key. unfold_M.
  destruct (crosses c pv); simpl.
  - unfold cascade_of. rewrite <- !app_assoc. reflexivity.
  - rewrite app_nil_r. reflexivity.
Qed.

(** Every heartbeat either raises, having logged warnings only and left
    the rows alone, or finds the row, passes the validator and commits the
    settled row, with the cascade after the warnings exactly when the row
    crosses into completion. *)
Lemma heartbeat_cases (c : HeartbeatCtx) (w : World) :
  (exists e logs,
     subsection_heartbeat c w = (inl e, mkWorld (rows w) (events w ++ logs)) /\
     forallb is_log logs = true) \/
  (exists p pv logs,
     rows w !! key c = Some p /\
     (pv = p \/ pv = set_session_start_at (Some (ctx_now_validate c)) p) /\
     (forall l, last_activity_at p = Some l ->
                (10 <= total_seconds (ctx_now_validate c) l)%Q) /\
     forallb is_log logs = true /\
     subsection_heartbeat c w
     = (inr (response_of (settled c pv)),
        mkWorld (<[key c := settled c pv]> (rows w))
          (events w ++ logs ++ (if crosses c pv then cascade_of c else [])))).
Proof.
  destruct (detect_bot_activity_effect (ctx_stdev c) (ctx_activities c)
              (ctx_recent_activities c) (ctx_user c) w)
    as (r & blogs & Ebot & Hbot).
  assert (Hblogs : forallb is_log blogs = true).
  { destruct Hbot as [[_ ->] | [_ ->]]; reflexivity. }
  assert (Hdec : r = inr false \/ r <> inr false).
  { destruct r as [e | [|]]; [right | right | left]; congruence. }
  destruct Hdec as [-> | Hr].
  2:{ left. eexists _, blogs. split; [| exact Hblogs].
      exact (heartbeat_flagged c w _ r Ebot Hr). }
  destruct Hbot as [[Hr _] | [_ ->]]; [discriminate Hr |].
  rewrite app_nil_r, world_eta in Ebot.
  destruct (rows w !! key c) as [p|] eqn:Hrow.
  2:{ left. exists (HTTPException HTTP_404_NOT_FOUND), [].
      rewrite app_nil_r, world_eta. split; [| reflexivity].
      now apply heartbeat_no_row. }
  destruct (validate_activity_effect p (ctx_now_validate c)
              (ctx_recent_intervals c) (ctx_active_sessions c) w)
    as (ok & pv & vlogs & Eval & Hvlogs & Hrej & Hacc).
  rewrite (heartbeat_validated c w _ p pv ok Ebot Hrow Eval).
  destruct ok.
  - destruct (Hacc eq_refl) as [Hpv Hfreq].
    right. exists p, pv, vlogs. simpl. rewrite <- app_assoc. done.
  - left. exists (HTTPException HTTP_429_TOO_MANY_REQUESTS), vlogs. done.
Qed.

(** Which exception a heartbeat raises, and where: the bot detector's own
    or 403 at the detector, 404 for want of a row, 429 at the validator. *)
Lemma heartbeat_exception (c : HeartbeatCtx) (w : World) e :
  fst (subsection_heartbeat c w) = inl e ->
  (e = NameError \/ e = IndexError \/ e = HTTPException HTTP_403_FORBIDDEN) \/
  (e = HTTPException HTTP_404_NOT_FOUND /\ rows w !! key c = None) \/
  (e = HTTPException HTTP_429_TOO_MANY_REQUESTS /\ is_Some (rows w !! key c)).
Proof.
  destruct (detect_bot_activity_effect (ctx_stdev c) (ctx_activities c)
              (ctx_recent_activities c) (ctx_user c) w)
    as (r & blogs & Ebot & Hbot).
  assert (Hdec : r = inr false \/ r <> inr false).
  { destruct r as [e' | [|]]; [right | right | left]; congruence. }
  destruct Hdec as [-> | Hr].
  - destruct Hbot as [[Hr _] | [_ ->]]; [discriminate Hr |].
    rewrite app_nil_r, world_eta in Ebot.
    destruct (rows w !! key c) as [p|] eqn:Hrow.
    + destruct (validate_activity_effect p (ctx_now_validate c)
                  (ctx_recent_intervals c) (ctx_active_sessions c) w)
        as (ok & pv & vlogs & Eval & _).
      rewrite (heartbeat_validated c w _ p pv ok Ebot Hrow Eval).
      destruct ok; [discriminate |].
      intros [= <-]. right. right. split; [reflexivity | now exists p].
    + rewrite (heartbeat_no_row c w Ebot Hrow).
      intros [= <-]. right. left. split; reflexivity.
  - rewrite (heartbeat_flagged c w _ r Ebot Hr). cbn [fst].
    intros [= <-]. left.
    destruct r as [e' | b]; [| right; right; reflexivity].
    unfold detect_bot_activity in Ebot. unfold_M.
    repeat match type of Ebot with
           | context [if ?b then _ else _] => destruct b
           | context [match ?o with Some _ => _ | None => _ end] => destruct o
           end;
      try discriminate Ebot; inversion Ebot; subst; auto.
Qed.

(** ** The time credit *)

Lemma total_seconds_ge (a b : datetime) (n : Z) :
  (inject_Z n <= total_seconds a b)%Q <-> n * 1000000 <= a - b.
Proof. unfold total_seconds, Qle, MICROS. simpl. lia. Qed.

Lemma int_total_seconds (a b : datetime) :
  int (total_seconds a b) = Z.quot (a - b) 1000000.
Proof. reflexivity. Qed.

(** Between 10 and 60 whole seconds are credited for an interval of at
    least ten seconds. *)
Lemma int_py_min_bounds (now l : datetime) :
  10 * 1000000 <= now - l ->
  10 <= int (py_min (total_seconds now l) 60) <= 60.
Proof.
  intros H. unfold py_min. destruct (Qlt_bool 60 (total_seconds now l)) eqn:E.
  - vm_compute. split; discriminate.
  - apply Qlt_bool_false_iff in E.
    assert (E' : now - l <= 60 * 1000000).
    { unfold total_seconds, Qle, MICROS in E. simpl in E. lia. }
    rewrite int_total_seconds.
    split.
    + apply Z.quot_le_lower_bound; lia.
    + apply Z.quot_le_upper_bound; lia.
Qed.

(** For a non-negative interval, truncation is the floor of the clamp. *)
Lemma int_py_min_floor_clamp (now l : datetime) :
  0 <= now - l ->
  int (py_min (total_seconds now l) 60)
  = Qfloor (clamp (total_seconds now l) 0 60).
Proof.
  intros H. unfold py_min, clamp.
  assert (E0 : Qlt_bool (total_seconds now l) 0 = false).
  { apply Qlt_bool_false_iff. unfold total_seconds, Qle. simpl. lia. }
  rewrite E0. destruct (Qlt_bool 60 (total_seconds now l)); [reflexivity |].
  rewrite int_total_seconds. unfold total_seconds, Qfloor, MICROS.
  now rewrite Z.quot_div_nonneg by lia.
Qed.

Lemma settled_time_spent c pv :
  time_spent_seconds (settled c pv)
  = time_spent_seconds pv + int (time_increment pv (ctx_now c)).
Proof. unfold settled. now destruct (crosses c pv). Qed.

Lemma settled_last_activity c pv :
  last_activity_at (settled c pv) = Some (ctx_now c).
Proof. unfold settled. now destruct (crosses c pv). Qed.

Lemma settled_is_completed c pv :
  is_completed (settled c pv) = is_completed pv || crosses c pv.
Proof.
  unfold settled. destruct (crosses c pv) eqn:E; simpl.
  - now rewrite orb_true_r.
  - now rewrite orb_false_r.
Qed.

Lemma settled_completion c pv :
  completion_percentage (settled c pv)
  = completion_percentage (credited c pv).
Proof. unfold settled. now destruct (crosses c pv). Qed.

(** The row the validator passes differs from the loaded row in
    [session_start_at] at most. *)
Lemma passed_row_fields (p pv : SubsectionProgress) (t : datetime) :
  pv = p \/ pv = set_session_start_at (Some t) p ->
  time_spent_seconds pv = time_spent_seconds p /\
  last_activity_at pv = last_activity_at p /\
  is_completed pv = is_completed p /\
  activity_sessions pv = activity_sessions p.
Proof. intros [-> | ->]; repeat split. Qed.

(** An accepted heartbeat, read off the rows before and after. *)
Lemma heartbeat_accepted (c : HeartbeatCtx) (w w' : World) resp :
  subsection_heartbeat c w = (inr resp, w') ->
  exists p pv logs,
    rows w !! key c = Some p /\
    (pv = p \/ pv = set_session_start_at (Some (ctx_now_validate c)) p) /\
    (forall l, last_activity_at p = Some l ->
               10 * 1000000 <= ctx_now_validate c - l) /\
    forallb is_log logs = true /\
    resp = response_of (settled c pv) /\
    rows w' = <[key c := settled c pv]> (rows w) /\
    events w' = events w ++ logs ++ (if crosses c pv then cascade_of c else []).
Proof.
  intros E. destruct (heartbeat_cases c w) as [(e & logs & E' & _) | H].
  - rewrite E' in E. discriminate E.
  - destruct H as (p & pv & logs & Hrow & Hpv & Hfreq & Hlogs & E').
    rewrite E' in E. injection E as <- <-.
    exists p, pv, logs. repeat split; try assumption.
    intros l Hl. apply (total_seconds_ge _ _ 10). now apply Hfreq.
Qed.

(** A heartbeat that raises leaves the rows and logs warnings only. *)
Lemma heartbeat_raised (c : HeartbeatCtx) (w w' : World) e :
  subsection_heartbeat c w = (inl e, w') ->
  rows w' = rows w /\
  exists logs, events w' = events w ++ logs /\ forallb is_log logs = true.
Proof.
  intros E. destruct (heartbeat_cases c w) as [(e' & logs & E' & Hlogs) | H].
  - rewrite E' in E. injection E as <- <-. split; [reflexivity |].
    now exists logs.
  - destruct H as (p & pv & logs & _ & _ & _ & _ & E').
    rewrite E' in E. discriminate E.
Qed.

(** ** C3: the credit of an accepted heartbeat *)

(** C3, as the design text words it, fails: ten and a half seconds after
    the last activity the clamp is 10.5 seconds while the row gains 10. *)
Lemma credit_by_the_text_fails :
  ~ (forall c w w' resp p p',
       subsection_heartbeat c w = (inr resp, w') ->
       rows w !! key c = Some p ->
       rows w' !! key c = Some p' ->
       (inject_Z (time_spent_seconds p' - time_spent_seconds p)
        == credit_by_the_text (last_activity_at p) (ctx_now c))%Q).
Proof.
  intros H.
  pose (c := ctx_at 10500000 10500000).
  pose (w := world_of (row_active (Some 0))).
  destruct (subsection_heartbeat c w) as [[e|resp] w'] eqn:E;
    [vm_compute in E; discriminate E |].
  destruct (rows w' !! key c) as [p'|] eqn:E';
    [| vm_compute in E; injection E as _ <-; vm_compute in E'; discriminate E'].
  specialize (H c w w' resp (row_active (Some 0)) p' E eq_refl E').
  vm_compute in E. injection E as _ <-.
  vm_compute in E'. injection E' as <-.
  vm_compute in H. discriminate H.
Qed.

(** C3 (amended): an accepted heartbeat adds whole seconds. When
    [last_activity_at] is set the credit is the truncation
    int(min(now - last_activity_at, 60)), which is the floor of
    clamp(now - last_activity_at, 0, 60) whenever the interval is not
    negative; when it is not set the credit is the nominal 15 seconds.
    Afterwards [last_activity_at] is [now]. *)
Theorem heartbeat_time_credit (c : HeartbeatCtx) (w w' : World) resp :
  subsection_heartbeat c w = (inr resp, w') ->
  exists p p',
    rows w !! key c = Some p /\
    rows w' !! key c = Some p' /\
    last_activity_at p' = Some (ctx_now c) /\
    match last_activity_at p with
    | Some l =>
        time_spent_seconds p'
        = time_spent_seconds p + int (py_min (total_seconds (ctx_now c) l) 60) /\
        (0 <= ctx_now c - l ->
         time_spent_seconds p'
         = time_spent_seconds p
           + Qfloor (clamp (total_seconds (ctx_now c) l) 0 60))
    | None => time_spent_seconds p' = time_spent_seconds p + 15
    end.
Proof.
  intros E.
  destruct (heartbeat_accepted c w w' resp E)
    as (p & pv & logs & Hrow & Hpv & _ & _ & _ & Hrows & _).
  destruct (passed_row_fields p pv _ Hpv) as (Ht & Hl & _ & _).
  exists p, (settled c pv). split; [assumption |].
  split; [rewrite Hrows; apply lookup_insert_eq |].
  split; [apply settled_last_activity |].
  rewrite settled_time_spent. unfold time_increment. rewrite Hl, Ht.
  destruct (last_activity_at p) as [l|]; [| reflexivity].
  split; [reflexivity |].
  intros Hnn. now rewrite int_py_min_floor_clamp.
Qed.

Lemma heartbeat_time_credit_witness :
  exists p p',
    rows (world_of (row_active (Some 0))) !! key (ctx_at 10500000 10500000) = Some p /\
    rows (snd (subsection_heartbeat (ctx_at 10500000 10500000)
                 (world_of (row_active (Some 0)))))
      !! key (ctx_at 10500000 10500000) = Some p' /\
    time_spent_seconds p' = time_spent_seconds p + 10.
Proof.
  destruct (subsection_heartbeat (ctx_at 10500000 10500000)
              (world_of (row_active (Some 0)))) as [[e|resp] w'] eqn:E;
    [vm_compute in E; discriminate E |].
  destruct (heartbeat_time_credit _ _ _ _ E) as (p & p' & Hp & Hp' & _ & Ht).
  exists p, p'. split; [exact Hp |]. split; [exact Hp' |].
  vm_compute in Hp. injection Hp as <-.
  simpl in Ht. destruct Ht as [Ht _]. exact Ht.
Defined.

(** ** C10: the credit is a positive whole number of seconds *)

(** C10, as it is worded, fails. The validator and the handler each read
    the clock. A row was last active at second 0; the validator reads
    second 12 and lets the heartbeat pass; the clock is then set back and
    the handler reads second 0.5. The credit is int(min(0.5, 60)) = 0:
    it is not in [10, 60] and the time spent does not grow. *)
Lemma credit_between_10_and_60_fails :
  ~ (forall c w resp w' p p',
       subsection_heartbeat c w = (inr resp, w') ->
       rows w !! key c = Some p ->
       rows w' !! key c = Some p' ->
       is_Some (last_activity_at p) ->
       10 <= time_spent_seconds p' - time_spent_seconds p <= 60 /\
       time_spent_seconds p < time_spent_seconds p').
Proof.
  intros H.
  destruct (subsection_heartbeat (ctx_at 12000000 500000)
              (world_of (row_active (Some 0)))) as [[e | resp] w'] eqn:E;
    [vm_compute in E; discriminate E |].
  destruct (rows w' !! key (ctx_at 12000000 500000)) as [p'|] eqn:Hp';
    [| vm_compute in E; injection E as _ <-; vm_compute in Hp'; discriminate Hp'].
  destruct (H _ _ _ _ (row_active (Some 0)) p' E eq_refl Hp') as [_ Hlt];
    [now exists 0 |].
  vm_compute in E. injection E as _ <-.
  vm_compute in Hp'. injection Hp' as <-.
  vm_compute in Hlt. discriminate Hlt.
Qed.

(** C10 (amended): an accepted heartbeat of a row whose [last_activity_at]
    is set adds int(min(now - last_activity_at, 60)) seconds, [now] being
    the handler's own reading of the clock. When that reading is not
    earlier than the validator's, the credit is a whole number between 10
    and 60, because the validator has turned away every interval under ten
    seconds; the first accepted heartbeat adds exactly 15; so, under that
    condition on the clock, the time spent, an integer, grows strictly at
    every accepted heartbeat. *)
Theorem heartbeat_credit_bounds (c : HeartbeatCtx) (w w' : World) resp :
  subsection_heartbeat c w = (inr resp, w') ->
  ctx_now_validate c <= ctx_now c ->
  exists p p',
    rows w !! key c = Some p /\
    rows w' !! key c = Some p' /\
    match last_activity_at p with
    | Some l =>
        time_spent_seconds p'
        = time_spent_seconds p + int (py_min (total_seconds (ctx_now c) l) 60) /\
        10 <= int (py_min (total_seconds (ctx_now c) l) 60) <= 60
    | None => time_spent_seconds p' = time_spent_seconds p + 15
    end /\
    time_spent_seconds p < time_spent_seconds p'.
Proof.
  intros E Hclock.
  destruct (heartbeat_accepted c w w' resp E)
    as (p & pv & logs & Hrow & Hpv & Hfreq & _ & _ & Hrows & _).
  destruct (passed_row_fields p pv _ Hpv) as (Ht & Hl & _ & _).
  exists p, (settled c pv). split; [assumption |].
  split; [rewrite Hrows; apply lookup_insert_eq |].
  rewrite settled_time_spent. unfold time_increment. rewrite Hl, Ht.
  destruct (last_activity_at p) as [l|].
  - assert (Hb : 10 <= int (py_min (total_seconds (ctx_now c) l) 60) <= 60).
    { apply int_py_min_bounds. specialize (Hfreq l eq_refl). lia. }
    repeat split; try lia.
  - split; [reflexivity |]. change (int 15%Q) with 15. lia.
Qed.

Lemma heartbeat_credit_bounds_witness :
  exists p p',
    rows (world_of (row_active (Some 0))) !! key (ctx_at 12000000 12500000) = Some p /\
    rows (snd (subsection_heartbeat (ctx_at 12000000 12500000)
                 (world_of (row_active (Some 0)))))
      !! key (ctx_at 12000000 12500000) = Some p' /\
    time_spent_seconds p < time_spent_seconds p'.
Proof.
  destruct (subsection_heartbeat (ctx_at 12000000 12500000)
              (world_of (row_active (Some 0)))) as [[e|resp] w'] eqn:E;
    [vm_compute in E; discriminate E |].
  assert (Hclock : ctx_now_validate (ctx_at 12000000 12500000)
                   <= ctx_now (ctx_at 12000000 12500000)) by (simpl; lia).
  destruct (heartbeat_credit_bounds _ _ _ _ E Hclock)
    as (p & p' & Hp & Hp' & _ & Ht).
  exists p, p'. auto.
Defined.

(** ** Start and complete *)

Lemma start_effect new_id user subsection now (w : World) :
  start_subsection_viewing new_id user subsection now w
  = let p0 := match rows w !! (user, subsection) with
              | Some p => p
              | None => new_progress new_id user subsection
              end in
    (inr (mkSessionResponse (progress_id p0) subsection (Some now)
            (time_spent_seconds p0) (completion_percentage p0)),
     mkWorld (<[(user, subsection) := set_session_start_at (Some now) p0]> (rows w))
       (events w)).
Proof.
  unfold start_subsection_viewing. unfold_M.
  destruct (rows w !! (user, subsection)); reflexivity.
Qed.

Lemma complete_no_row user subsection now_duration now_end (w : World) :
  rows w !! (user, subsection) = None ->
  complete_subsection_viewing user subsection now_duration now_end w
  = (inl (HTTPException HTTP_404_NOT_FOUND), w).
Proof.
  intros H. unfold complete_subsection_viewing. unfold_M. now rewrite H.
Qed.

Lemma complete_effect user subsection now_duration now_end (w : World) p :
  rows w !! (user, subsection) = Some p ->
  exists p',
    complete_subsection_viewing user subsection now_duration now_end w
    = (inr p', mkWorld (<[(user, subsection) := p']> (rows w)) (events w)) /\
    time_spent_seconds p' = time_spent_seconds p /\
    is_completed p' = is_completed p /\
    (session_start_at p = None -> p' = p).
Proof.
  intros H. unfold complete_subsection_viewing. unfold_M. rewrite H.
  eexists. split; [reflexivity |].
  destruct (session_start_at p); repeat split; intros; congruence.
Qed.

(** Whether the helper stores the row it creates or leaves that to the
    commit, the start is the same. *)
Lemma start_subsection_viewing_either_reading new_id user subsection now
    (w : World) :
  (progress <- get_or_create_and_add new_id user subsection ;;
   let progress := set_session_start_at (Some now) progress in
   commit user subsection progress ;;;
   ret (mkSessionResponse (progress_id progress) subsection
          (session_start_at progress) (time_spent_seconds progress)
          (completion_percentage progress))) w
  = start_subsection_viewing new_id user subsection now w.
Proof.
  unfold start_subsection_viewing, get_or_create_and_add. unfold_M.
  destruct (rows w !! (user, subsection)); [reflexivity |].
  cbn [rows events]. now rewrite insert_insert_eq.
Qed.

(** ** C9: starting over an open session *)

(** C9, as the design text words it, fails: a start over a session that is
    still open appends nothing to the history of the row. *)
Lemma start_closes_stale_session_fails :
  ~ (forall new_id user subsection now w p start,
       rows w !! (user, subsection) = Some p ->
       session_start_at p = Some start ->
       exists p' e,
         rows (snd (start_subsection_viewing new_id user subsection now w))
           !! (user, subsection) = Some p' /\
         history p' = history p ++ [e] /\
         entry_duration e <= 7200).
Proof.
  intros H.
  destruct (H 2 1 1 9000000000 (world_of (row_active None)) (row_active None) 0
              eq_refl eq_refl) as (p' & e & Hp' & Hh & _).
  vm_compute in Hp'. injection Hp' as <-. vm_compute in Hh. discriminate Hh.
Qed.

(** C9 (amended): a start on a row, whether or not its session is open,
    sets [session_start_at] to now and nothing else: no entry is appended
    to the history, no event happens, [last_activity_at], the time spent
    and the percentage are untouched, and the response carries the
    cumulative time and percentage of the row. *)
Theorem start_overwrites_session new_id user subsection now (w : World) p :
  rows w !! (user, subsection) = Some p ->
  exists resp w' p',
    start_subsection_viewing new_id user subsection now w = (inr resp, w') /\
    rows w' !! (user, subsection) = Some p' /\
    events w' = events w /\
    session_start_at p' = Some now /\
    activity_sessions p' = activity_sessions p /\
    last_activity_at p' = last_activity_at p /\
    time_spent_seconds p' = time_spent_seconds p /\
    completion_percentage p' = completion_percentage p /\
    is_completed p' = is_completed p /\
    resp_started_at resp = Some now /\
    resp_time_spent_seconds resp = time_spent_seconds p /\
    resp_completion_percentage resp = completion_percentage p.
Proof.
  intros H. rewrite start_effect, H. cbv zeta.
  eexists _, _, (set_session_start_at (Some now) p).
  split; [reflexivity |]. split; [apply lookup_insert_eq |].
  repeat split.
Qed.

Lemma start_overwrites_session_witness :
  exists resp w' p',
    start_subsection_viewing 2 1 1 9000000000 (world_of (row_active None))
    = (inr resp, w') /\
    rows w' !! (1, 1) = Some p' /\
    activity_sessions p' = None.
Proof.
  destruct (start_overwrites_session 2 1 1 9000000000
              (world_of (row_active None)) (row_active None) eq_refl)
    as (resp & w' & p' & E & Hp' & _ & _ & Hh & _).
  exists resp, w', p'. repeat split; assumption.
Defined.

(** ** C5: heartbeat and complete without an open session *)

(** C5, as the design text words it, fails: on a row whose session has
    been closed a heartbeat is accepted and a second complete returns the
    row; neither raises 404. *)
Lemma session_required_fails :
  ~ (forall c w p,
       rows w !! key c = Some p -> session_start_at p = None ->
       fst (subsection_heartbeat c w) = inl (HTTPException HTTP_404_NOT_FOUND)) /\
  ~ (forall user subsection now_duration now_end w p,
       rows w !! (user, subsection) = Some p -> session_start_at p = None ->
       fst (complete_subsection_viewing user subsection now_duration now_end w)
       = inl (HTTPException HTTP_404_NOT_FOUND)).
Proof.
  split; intros H.
  - destruct (rows world_after_complete !! key (ctx_at 75000000 75000000))
      as [p|] eqn:Hp; [| vm_compute in Hp; discriminate Hp].
    specialize (H (ctx_at 75000000 75000000) world_after_complete p Hp).
    vm_compute in Hp. injection Hp as <-.
    specialize (H eq_refl). vm_compute in H. discriminate H.
  - destruct (rows world_after_complete !! (1, 1))
      as [p|] eqn:Hp; [| vm_compute in Hp; discriminate Hp].
    specialize (H 1 1 90000000 90000000 world_after_complete p Hp).
    vm_compute in Hp. injection Hp as <-.
    specialize (H eq_refl). vm_compute in H. discriminate H.
Qed.

(** C5 (amended): heartbeat and complete each require the row of the
    pair, not an open session. With no row, complete raises 404 and a
    heartbeat that the bot detector lets through raises 404, and nothing
    is mutated. With a row whose session is closed, complete returns the
    row and leaves the world as it was, and a heartbeat never raises
    404. *)
Theorem row_required :
  (forall c w,
     rows w !! key c = None ->
     detect_bot_activity (ctx_stdev c) (ctx_activities c) (ctx_recent_activities c)
       (ctx_user c) w = (inr false, w) ->
     subsection_heartbeat c w = (inl (HTTPException HTTP_404_NOT_FOUND), w)) /\
  (forall user subsection now_duration now_end w,
     rows w !! (user, subsection) = None ->
     complete_subsection_viewing user subsection now_duration now_end w
     = (inl (HTTPException HTTP_404_NOT_FOUND), w)) /\
  (forall user subsection now_duration now_end w p,
     rows w !! (user, subsection) = Some p ->
     session_start_at p = None ->
     complete_subsection_viewing user subsection now_duration now_end w
     = (inr p, w)) /\
  (forall c w p,
     rows w !! key c = Some p ->
     fst (subsection_heartbeat c w) <> inl (HTTPException HTTP_404_NOT_FOUND)).
Proof.
  repeat split.
  - intros c w Hrow Hbot. now apply heartbeat_no_row.
  - intros. now apply complete_no_row.
  - intros user subsection nd ne w p Hrow Hs.
    destruct (complete_effect user subsection nd ne w p Hrow)
      as (p' & E & _ & _ & Hp').
    rewrite E, (Hp' Hs), insert_id by assumption. now rewrite world_eta.
  - intros c w p Hrow H404.
    destruct (heartbeat_exception c w _ H404) as [[H | [H | H]] | [[_ H] | [H _]]];
      try discriminate H.
    rewrite Hrow in H. discriminate H.
Qed.

Lemma row_required_witness :
  subsection_heartbeat (ctx_at 5 5) (mkWorld ∅ [])
  = (inl (HTTPException HTTP_404_NOT_FOUND), mkWorld ∅ []) /\
  complete_subsection_viewing 1 1 5 5 (mkWorld ∅ [])
  = (inl (HTTPException HTTP_404_NOT_FOUND), mkWorld ∅ []) /\
  (exists p,
     rows world_after_complete !! (1, 1) = Some p /\
     complete_subsection_viewing 1 1 90000000 90000000 world_after_complete
     = (inr p, world_after_complete)).
Proof.
  destruct row_required as (Hhb & Hc & Hcc & _).
  split; [apply Hhb; reflexivity |].
  split; [apply Hc; reflexivity |].
  destruct (rows world_after_complete !! (1, 1)) as [p|] eqn:Hp;
    [| vm_compute in Hp; discriminate Hp].
  exists p. split; [reflexivity |].
  apply Hcc; [exact Hp |].
  vm_compute in Hp. injection Hp as <-. reflexivity.
Defined.

(** ** C6: the validator *)

Lemma validate_too_frequent p now ri act (w : World) l :
  last_activity_at p = Some l ->
  (total_seconds now l < 10)%Q ->
  validate_activity p now ri act w
  = (inr (false, p), logged w [Log Too_frequent_requests (user_id p)]).
Proof.
  intros Hl Hlt. unfold validate_activity. rewrite Hl.
  apply Qlt_bool_iff in Hlt. now rewrite Hlt.
Qed.

Lemma in_band_ge_10 (x : Q) : in_band x = true -> Qlt_bool x 10 = false.
Proof.
  unfold in_band. intros [H _]%andb_true_iff. apply Qle_bool_iff in H.
  apply Qlt_bool_false_iff. eapply Qle_trans; [| exact H].
  unfold Qle. simpl. lia.
Qed.

Lemma validate_suspicious p now ri act (w : World) l :
  last_activity_at p = Some l ->
  in_band (total_seconds now l) = true ->
  forallb in_band ri = true ->
  validate_activity p now ri act w
  = (inr (false, p), logged w [Log Suspicious_regular_pattern (user_id p)]).
Proof.
  intros Hl Hband Hall. unfold validate_activity.
  rewrite Hl, (in_band_ge_10 _ Hband), Hband, Hall. reflexivity.
Qed.

Lemma validate_after_intervals p now ri act (w : World) :
  passes_interval_checks p now ri = true ->
  validate_activity p now ri act w
  = if 3 <? act then
      (inr (false, p), logged w [Log Too_many_active_sessions (user_id p)])
    else
      match session_start_at p with
      | Some start =>
          if Qlt_bool 7200 (total_seconds now start) then
            (inr (true, set_session_start_at (Some now) p),
             logged w [Log Session_too_long (user_id p)])
          else (inr (true, p), w)
      | None => (inr (true, p), w)
      end.
Proof.
  unfold passes_interval_checks, validate_activity. intros H.
  assert (Hs :
    (if 3 <? act
     then emit (Log Too_many_active_sessions (user_id p)) ;;; ret (false, p)
     else match session_start_at p with
          | Some start =>
              if Qlt_bool 7200 (total_seconds now start)
              then emit (Log Session_too_long (user_id p)) ;;;
                   ret (true, set_session_start_at (Some now) p)
              else ret (true, p)
          | None => ret (true, p)
          end) w
    = if 3 <? act then
        (inr (false, p), logged w [Log Too_many_active_sessions (user_id p)])
      else
        match session_start_at p with
        | Some start =>
            if Qlt_bool 7200 (total_seconds now start) then
              (inr (true, set_session_start_at (Some now) p),
               logged w [Log Session_too_long (user_id p)])
            else (inr (true, p), w)
        | None => (inr (true, p), w)
        end).
  { unfold_M. destruct (3 <? act); [reflexivity |].
    destruct (session_start_at p) as [start|]; [| reflexivity].
    now destruct (Qlt_bool 7200 (total_seconds now start)). }
  destruct (last_activity_at p) as [l|]; [| exact Hs].
  apply andb_true_iff in H as [H1 H2].
  apply negb_true_iff in H1. apply negb_true_iff in H2.
  rewrite H1, H2. exact Hs.
Qed.

(** More than three open sessions: rejected whatever the intervals. *)
Lemma validate_too_many p now ri act (w : World) :
  3 < act ->
  exists logs,
    validate_activity p now ri act w = (inr (false, p), logged w logs).
Proof.
  intros Hact.
  destruct (passes_interval_checks p now ri) eqn:Hpass.
  - rewrite validate_after_intervals by assumption.
    apply Z.ltb_lt in Hact. rewrite Hact. eauto.
  - unfold passes_interval_checks in Hpass.
    destruct (last_activity_at p) as [l|] eqn:Hl; [| discriminate Hpass].
    destruct (Qlt_bool (total_seconds now l) 10) eqn:Hfreq.
    + eexists. apply validate_too_frequent with (l := l); [assumption |].
      now apply Qlt_bool_iff.
    + simpl in Hpass. apply negb_false_iff in Hpass.
      apply andb_true_iff in Hpass as [Hb Hall].
      eexists. now apply validate_suspicious with (l := l).
Qed.

(** C6: for a heartbeat that has reached the validator (the bot detector
    let it through and the row exists): an interval under ten seconds is
    rejected with the warning "Too frequent requests"; an interval in the
    14.9 to 15.1 band, all recent intervals being in the band, with
    "Suspicious regular pattern"; more than three open sessions with "Too
    many active sessions" (whenever neither earlier check fires, and
    rejected in any case). Each rejection raises 429 and leaves every row
    as it was. A session open for more than 7200 seconds is not a
    rejection: the heartbeat is accepted and the committed row has its
    [session_start_at] set to the validator's now. *)
Theorem validator_contract (c : HeartbeatCtx) (w : World) (p : SubsectionProgress) :
  detect_bot_activity (ctx_stdev c) (ctx_activities c) (ctx_recent_activities c) (ctx_user c) w
  = (inr false, w) ->
  rows w !! key c = Some p ->
  let now := ctx_now_validate c in
  let rejected_as warning :=
    subsection_heartbeat c w
    = (inl (HTTPException HTTP_429_TOO_MANY_REQUESTS),
       logged w [Log warning (user_id p)]) in
  (forall l, last_activity_at p = Some l ->
     (total_seconds now l < 10)%Q -> rejected_as Too_frequent_requests) /\
  (forall l, last_activity_at p = Some l ->
     in_band (total_seconds now l) = true ->
     forallb in_band (ctx_recent_intervals c) = true ->
     rejected_as Suspicious_regular_pattern) /\
  (3 < ctx_active_sessions c ->
     (passes_interval_checks p now (ctx_recent_intervals c) = true ->
      rejected_as Too_many_active_sessions) /\
     exists logs,
       subsection_heartbeat c w
       = (inl (HTTPException HTTP_429_TOO_MANY_REQUESTS), logged w logs)) /\
  (forall e w',
     subsection_heartbeat c w = (inl e, w') ->
     rows w' = rows w /\ rows w' !! key c = Some p) /\
  (forall start, session_start_at p = Some start ->
     passes_interval_checks p now (ctx_recent_intervals c) = true ->
     ctx_active_sessions c <= 3 ->
     (7200 < total_seconds now start)%Q ->
     exists resp w' p',
       subsection_heartbeat c w = (inr resp, w') /\
       rows w' !! key c = Some p' /\
       session_start_at p' = Some now).
Proof.
  intros Hbot Hrow now rejected_as. subst rejected_as. cbv beta.
  repeat split.
  - intros l Hl Hlt.
    rewrite (heartbeat_validated c w _ p p false Hbot Hrow
               (validate_too_frequent p now _ _ w l Hl Hlt)).
    reflexivity.
  - intros l Hl Hband Hall.
    rewrite (heartbeat_validated c w _ p p false Hbot Hrow
               (validate_suspicious p now _ _ w l Hl Hband Hall)).
    reflexivity.
  - intros Hpass.
    pose proof (validate_after_intervals p now (ctx_recent_intervals c)
                  (ctx_active_sessions c) w Hpass) as E.
    apply Z.ltb_lt in H. rewrite H in E.
    now rewrite (heartbeat_validated c w _ p p false Hbot Hrow E).
  - destruct (validate_too_many p now (ctx_recent_intervals c)
                (ctx_active_sessions c) w H) as (logs & E).
    exists logs. now rewrite (heartbeat_validated c w _ p p false Hbot Hrow E).
  - now apply (heartbeat_raised c w w' e).
  - destruct (heartbeat_raised c w w' e H) as [-> _]. exact Hrow.
  - intros start Hs Hpass Hact Hlong.
    pose proof (validate_after_intervals p now (ctx_recent_intervals c)
                  (ctx_active_sessions c) w Hpass) as E.
    apply Z.ltb_ge in Hact. rewrite Hact, Hs in E.
    apply Qlt_bool_iff in Hlong. rewrite Hlong in E.
    rewrite (heartbeat_validated c w _ p _ true Hbot Hrow E).
    eexists _, _, _. split; [reflexivity |].
    split; [apply lookup_insert_eq |].
    unfold settled. now destruct (crosses c _).
Qed.

Lemma validator_contract_witness :
  subsection_heartbeat (ctx_at 5000000 5000000) (world_of (row_active (Some 0)))
  = (inl (HTTPException HTTP_429_TOO_MANY_REQUESTS),
     logged (world_of (row_active (Some 0))) [Log Too_frequent_requests 1]) /\
  (exists resp w' p',
     subsection_heartbeat (ctx_at 7201000000 7201000000)
       (world_of (row_active (Some 0))) = (inr resp, w') /\
     rows w' !! (1, 1) = Some p' /\
     session_start_at p' = Some 7201000000).
Proof.
  split.
  - apply (validator_contract (ctx_at 5000000 5000000)
             (world_of (row_active (Some 0))) (row_active (Some 0))
             eq_refl eq_refl) with (l := 0); [reflexivity | reflexivity].
  - apply (validator_contract (ctx_at 7201000000 7201000000)
             (world_of (row_active (Some 0))) (row_active (Some 0))
             eq_refl eq_refl) with (start := 0);
      [reflexivity | reflexivity | simpl; lia | reflexivity].
Defined.

(** ** C7: the bot detector *)









(** ** One request at a time *)

Lemma new_events_logged (w : World) r (l : list Event) :
  new_events w (mkWorld r (events w ++ l)) = l.
Proof. unfold new_events. simpl. apply drop_app_length. Qed.

Lemma new_events_same (w : World) r : new_events w (mkWorld r (events w)) = [].
Proof. unfold new_events. simpl. apply drop_all. Qed.

Lemma new_events_refl (w : World) : new_events w w = [].
Proof. rewrite <- (world_eta w) at 2. apply new_events_same. Qed.

Lemma logs_have_no_cascade (l : list Event) :
  forallb is_log l = true -> existsb is_cascade l = false.
Proof.
  induction l as [|ev l IH]; [reflexivity |].
  simpl. intros [Hev Hl]%andb_true_iff.
  unfold is_log in Hev. apply negb_true_iff in Hev. rewrite Hev. now apply IH.
Qed.

Lemma endpoint_unfold request t c (s : Server) :
  heartbeat_endpoint request t c s
  = let h := Limiter.hit Limiter.four_per_minute (get_remote_address request) t
               (storage s) in
    if fst h then
      (fst (subsection_heartbeat c (world s)),
       mkServer (snd h) (snd (subsection_heartbeat c (world s))))
    else (inl RateLimitExceeded, mkServer (snd h) (world s)).
Proof.
  unfold heartbeat_endpoint.
  destruct (Limiter.hit _ _ _ _) as [[|] st]; simpl; [| reflexivity].
  now destruct (subsection_heartbeat c (world s)).
Qed.

(** What one request does to the row at [k]: nothing; or it keeps the
    time and the completion flag (start, complete); or it creates the row,
    not completed (start); or it is an accepted heartbeat of that row. *)
Lemma step_at_key (op : Op) (s : Server) (k : Z * Z) :
  let w := world s in
  let w' := world (snd (step op s)) in
  (rows w' !! k = rows w !! k /\ fires k op s = false) \/
  (exists p p',
     rows w !! k = Some p /\ rows w' !! k = Some p' /\
     is_heartbeat op = false /\
     time_spent_seconds p' = time_spent_seconds p /\
     is_completed p' = is_completed p /\
     fires k op s = false) \/
  (rows w !! k = None /\
   exists p', rows w' !! k = Some p' /\ is_completed p' = false /\
              fires k op s = false) \/
  (exists request t c p pv,
     op = OpHeartbeat request t c /\ k = key c /\
     fst (step op s) = None /\
     rows w !! k = Some p /\
     (pv = p \/ pv = set_session_start_at (Some (ctx_now_validate c)) p) /\
     (forall l, last_activity_at p = Some l ->
                10 * 1000000 <= ctx_now_validate c - l) /\
     rows w' !! k = Some (settled c pv) /\
     fires k op s = crosses c pv).
Proof.
  cbv zeta. unfold fires, step_events.
  destruct op as [new_id user subsection now | request t c
                 | user subsection now_duration now_end]; cbn [step targets].
  - (* start *)
    rewrite start_effect. cbv zeta. cbn [snd world rows].
    destruct (decide ((user, subsection) = k)) as [<- | Hne].
    + rewrite lookup_insert_eq.
      destruct (rows (world s) !! (user, subsection)) as [p|] eqn:Hrow.
      * right. left. exists p, (set_session_start_at (Some now) p).
        repeat split.
      * right. right. left. split; [reflexivity |].
        eexists. repeat split.
    + left. rewrite lookup_insert_ne by assumption. split; reflexivity.
  - (* heartbeat *)
    rewrite endpoint_unfold. cbv zeta.
    destruct (fst (Limiter.hit _ _ _ _)); cbn [snd fst world outcome].
    2:{ left. split; [reflexivity |]. rewrite new_events_refl.
        apply andb_false_r. }
    destruct (heartbeat_cases c (world s))
      as [(e & logs & E & Hlogs) | (p & pv & logs & Hrow & Hpv & Hfreq & Hlogs & E)];
      rewrite E; cbn [snd fst rows outcome].
    + left. split; [reflexivity |].
      rewrite new_events_logged, (logs_have_no_cascade _ Hlogs).
      apply andb_false_r.
    + rewrite new_events_logged, existsb_app, (logs_have_no_cascade _ Hlogs).
      cbn [orb].
      assert (Hfire : existsb is_cascade (if crosses c pv then cascade_of c else [])
                      = crosses c pv) by now destruct (crosses c pv).
      rewrite Hfire.
      destruct (decide (key c = k)) as [<- | Hne].
      * right. right. right. exists request, t, c, p, pv.
        rewrite lookup_insert_eq, bool_decide_eq_true_2 by reflexivity.
        repeat split; try assumption.
        intros l Hl. apply (total_seconds_ge _ _ 10). now apply Hfreq.
      * left. rewrite lookup_insert_ne by assumption.
        now rewrite bool_decide_eq_false_2 by assumption.
  - (* complete *)
    destruct (rows (world s) !! (user, subsection)) as [p|] eqn:Hrow.
    + destruct (complete_effect user subsection now_duration now_end (world s) p Hrow)
        as (p' & E & Ht & Hc & _).
      rewrite E. cbn [snd world rows].
      destruct (decide ((user, subsection) = k)) as [<- | Hne].
      * right. left. exists p, p'. rewrite lookup_insert_eq. repeat split; assumption.
      * left. rewrite lookup_insert_ne by assumption. split; reflexivity.
    + rewrite (complete_no_row _ _ _ _ _ Hrow). left. split; reflexivity.
Qed.

(** ** C4: the time spent never decreases *)

Lemma settled_time_spent_ge c p pv :
  pv = p \/ pv = set_session_start_at (Some (ctx_now_validate c)) p ->
  (forall l, last_activity_at p = Some l ->
             10 * 1000000 <= ctx_now_validate c - l) ->
  ctx_now_validate c <= ctx_now c ->
  time_spent_seconds p <= time_spent_seconds (settled c pv).
Proof.
  intros Hpv Hfreq Hclock.
  destruct (passed_row_fields p pv _ Hpv) as (Ht & Hl & _ & _).
  rewrite settled_time_spent. unfold time_increment. rewrite Hl, Ht.
  destruct (last_activity_at p) as [l|].
  - assert (Hb : 10 <= int (py_min (total_seconds (ctx_now c) l) 60) <= 60).
    { apply int_py_min_bounds. specialize (Hfreq l eq_refl). lia. }
    lia.
  - change (int 15%Q) with 15. lia.
Qed.

Lemma step_time_spent (op : Op) (s : Server) (k : Z * Z) p :
  rows (world s) !! k = Some p ->
  exists p',
    rows (world (snd (step op s))) !! k = Some p' /\
    (clock_monotone op -> time_spent_seconds p <= time_spent_seconds p') /\
    (is_heartbeat op = false \/ is_Some (fst (step op s)) ->
     time_spent_seconds p' = time_spent_seconds p).
Proof.
  intros Hrow.
  destruct (step_at_key op s k)
    as [[Hsame _] | [(p0 & p' & Hp0 & Hp' & _ & Ht & _)
       | [[Hnone _] | (request & t & c & p0 & pv & -> & -> & Hok & Hp0 & Hpv
                       & Hfreq & Hp' & _)]]].
  - exists p. rewrite Hsame. split; [assumption |]. split; [lia | reflexivity].
  - rewrite Hrow in Hp0. injection Hp0 as <-.
    exists p'. split; [assumption |]. split; [lia | intros _; assumption].
  - rewrite Hrow in Hnone. discriminate Hnone.
  - rewrite Hrow in Hp0. injection Hp0 as <-.
    exists (settled c pv). split; [assumption |]. split.
    + intros Hclock. now apply settled_time_spent_ge.
    + intros [Hhb | [e He]]; [discriminate Hhb |].
      rewrite Hok in He. discriminate He.
Qed.

(** C4, as it is worded, fails. A row was last active at second 0 with no
    time spent; the validator of a heartbeat reads second 12 and lets it
    pass; the clock is then set back and the handler reads second -1.5.
    The credit is int(min(-1.5, 60)) = -1 and the time spent goes from 0
    to -1. *)
Lemma time_spent_never_decreases_fails :
  ~ (forall ops s k p p',
       rows (world s) !! k = Some p ->
       rows (world (run ops s)) !! k = Some p' ->
       time_spent_seconds p <= time_spent_seconds p').
Proof.
  intros H.
  pose (ops := [OpHeartbeat shared_host 12000000 (ctx_at 12000000 (-1500000))]).
  pose (s := mkServer ∅ (world_of (row_active (Some 0)))).
  destruct (rows (world (run ops s)) !! (1, 1)) as [p'|] eqn:Hp';
    [| vm_compute in Hp'; discriminate Hp'].
  specialize (H ops s (1, 1) (row_active (Some 0)) p' eq_refl Hp').
  vm_compute in Hp'. injection Hp' as <-.
  vm_compute in H. apply H. reflexivity.
Qed.

(** C4 (amended): over every sequence of start, heartbeat and complete
    requests in which no heartbeat's handler reads the clock earlier than
    its validator did, the time spent of a row never decreases: such a
    heartbeat, when accepted, adds a non-negative credit, and a start, a
    complete and a heartbeat that is rejected (by the limiter, the bot
    detector, the validator or for want of a row) leave it as it was,
    whatever the clock. *)
Theorem time_spent_never_decreases :
  (forall ops s k p,
     Forall clock_monotone ops ->
     rows (world s) !! k = Some p ->
     exists p',
       rows (world (run ops s)) !! k = Some p' /\
       time_spent_seconds p <= time_spent_seconds p') /\
  (forall op s k p,
     rows (world s) !! k = Some p ->
     exists p',
       rows (world (snd (step op s))) !! k = Some p' /\
       (clock_monotone op -> time_spent_seconds p <= time_spent_seconds p') /\
       (is_heartbeat op = false \/ is_Some (fst (step op s)) ->
        time_spent_seconds p' = time_spent_seconds p)).
Proof.
  split; [| intros; now apply step_time_spent].
  intros ops. induction ops as [|op ops IH]; intros s k p Hmono Hrow.
  - exists p. split; [assumption | lia].
  - apply Forall_cons in Hmono as [Hop Hops].
    destruct (step_time_spent op s k p Hrow) as (p1 & Hp1 & Hle & _).
    destruct (IH (snd (step op s)) k p1 Hops Hp1) as (p' & Hp' & Hle').
    exists p'. split; [exact Hp' |]. specialize (Hle Hop). lia.
Qed.

Lemma time_spent_never_decreases_witness :
  exists p',
    rows (world (run one_visit (mkServer ∅ (world_of (row_active None)))))
      !! (1, 1) = Some p' /\
    0 <= time_spent_seconds p'.
Proof.
  destruct time_spent_never_decreases as [Hrun _].
  apply (Hrun one_visit (mkServer ∅ (world_of (row_active None))) (1, 1)
           (row_active None)); [| reflexivity].
  unfold one_visit. repeat constructor; simpl; lia.
Defined.

(** ** C2: the cascade fires once *)

Lemma filter_cascade_logs (l : list Event) :
  forallb is_log l = true -> List.filter is_cascade l = [].
Proof.
  induction l as [|ev l IH]; [reflexivity |].
  simpl. intros [Hev Hl]%andb_true_iff.
  unfold is_log in Hev. apply negb_true_iff in Hev. rewrite Hev. now apply IH.
Qed.

Lemma step_completed (k : Z * Z) (op : Op) (s : Server) :
  completed_at k (snd (step op s)) = completed_at k s || fires k op s /\
  (completed_at k s = true -> fires k op s = false).
Proof.
  unfold completed_at.
  destruct (step_at_key op s k)
    as [[Hsame Hf] | [(p0 & p' & Hp0 & Hp' & _ & _ & Hc & Hf)
       | [[Hnone (p' & Hp' & Hc & Hf)]
         | (request & t & c & p0 & pv & -> & -> & _ & Hp0 & Hpv
            & _ & Hp' & Hf)]]].
  - rewrite Hsame, Hf, orb_false_r. split; reflexivity.
  - rewrite Hp0, Hp', Hc, Hf, orb_false_r. split; reflexivity.
  - rewrite Hnone, Hp', Hc, Hf. split; reflexivity.
  - destruct (passed_row_fields p0 pv _ Hpv) as (_ & _ & Hc & _).
    rewrite Hp0, Hp', Hf, settled_is_completed, Hc. split; [reflexivity |].
    intros Hdone. unfold crosses. rewrite Hc, Hdone. apply andb_false_r.
Qed.

(** C2: an accepted heartbeat that recomputes a percentage of 100 on a row
    not yet completed sets [is_completed] and invokes the cascade, the pair
    of calls [update_section_progress], [update_topic_progress], once; an
    accepted heartbeat on a completed row is processed as any other (time
    credited, [last_activity_at] moved) and invokes nothing; below 100 the
    row stays as it is. Over every sequence of requests the flag of a row
    never reverts, and the number of heartbeats that invoke the cascade for
    the row is 1 when the row goes from not completed to completed and 0
    otherwise. *)
Theorem cascade_fires_once :
  (forall c w w' resp,
     subsection_heartbeat c w = (inr resp, w') ->
     exists p p',
       rows w !! key c = Some p /\
       rows w' !! key c = Some p' /\
       hb_is_completed resp = is_completed p' /\
       (is_completed p = false ->
        (100 <= hb_completion_percentage resp)%Q ->
        is_completed p' = true /\
        List.filter is_cascade (new_events w w') = cascade_of c) /\
       (is_completed p = false ->
        ~ (100 <= hb_completion_percentage resp)%Q ->
        is_completed p' = false /\
        List.filter is_cascade (new_events w w') = []) /\
       (is_completed p = true ->
        is_completed p' = true /\
        List.filter is_cascade (new_events w w') = [] /\
        time_spent_seconds p'
        = time_spent_seconds p + int (time_increment p (ctx_now c)) /\
        last_activity_at p' = Some (ctx_now c))) /\
  (forall k ops s,
     (completed_at k s = true -> completed_at k (run ops s) = true) /\
     cascade_count k ops s
     = if completed_at k s then 0%nat
       else if completed_at k (run ops s) then 1%nat else 0%nat).
Proof.
  split.
  - intros c w w' resp E.
    destruct (heartbeat_accepted c w w' resp E)
      as (p & pv & logs & Hrow & Hpv & _ & Hlogs & -> & Hrows & Hev).
    destruct (passed_row_fields p pv _ Hpv) as (Ht & Hl & Hc & _).
    exists p, (settled c pv). split; [assumption |].
    split; [rewrite Hrows; apply lookup_insert_eq |].
    split; [reflexivity |].
    assert (Hnew : List.filter is_cascade (new_events w w')
                   = if crosses c pv then cascade_of c else []).
    { destruct w' as [r' ev']. simpl in Hev. subst ev'.
      rewrite new_events_logged, List.filter_app, (filter_cascade_logs _ Hlogs).
      now destruct (crosses c pv). }
    rewrite Hnew, settled_is_completed, settled_time_spent, settled_last_activity.
    unfold time_increment. rewrite Hl, Ht, Hc.
    cbn [response_of hb_completion_percentage]. rewrite settled_completion.
    unfold crosses. rewrite Hc.
    set (b := Qle_bool 100 (completion_percentage (credited c pv))).
    assert (Hb : b = true <-> (100 <= completion_percentage (credited c pv))%Q)
      by apply Qle_bool_iff.
    split; [| split].
    + intros Hf Hle. apply Hb in Hle. rewrite Hf, Hle. split; reflexivity.
    + intros Hf Hnle. rewrite Hf.
      destruct b; [exfalso; apply Hnle, Hb; reflexivity |].
      split; reflexivity.
    + intros Hdone. rewrite Hdone, andb_false_r. repeat split.
  - intros k ops. induction ops as [|op ops IH]; intros s.
    + simpl. split; [tauto |]. now destruct (completed_at k s).
    + cbn [run cascade_count].
      destruct (IH (snd (step op s))) as [IHmono IHcount].
      destruct (step_completed k op s) as [Hstep Hquiet].
      rewrite IHcount, Hstep. rewrite Hstep in IHmono.
      destruct (completed_at k s).
      * rewrite (Hquiet eq_refl). simpl. split; [intros _; now apply IHmono |].
        reflexivity.
      * simpl in *. split; [discriminate |].
        destruct (fires k op s); [| reflexivity].
        now rewrite (IHmono eq_refl).
Qed.

Lemma cascade_fires_once_witness :
  (exists p',
     rows (snd (subsection_heartbeat (ctx_at 40000000 40000000)
                  (world_of (row_active (Some 0))))) !! (1, 1) = Some p' /\
     is_completed p' = true) /\
  cascade_count (1, 1) one_visit empty_server = 1%nat.
Proof.
  destruct cascade_fires_once as [Hstep Htrace]. split.
  - destruct (subsection_heartbeat (ctx_at 40000000 40000000)
                (world_of (row_active (Some 0)))) as [[e|resp] w'] eqn:E;
      [vm_compute in E; discriminate E |].
    destruct (Hstep _ _ _ _ E) as (p & p' & Hp & Hp' & _ & Hcross & _).
    exists p'. split; [exact Hp' |].
    apply Hcross.
    + vm_compute in Hp. injection Hp as <-. reflexivity.
    + vm_compute in E. injection E as <- _. vm_compute. discriminate.
  - destruct (Htrace (1, 1) one_visit empty_server) as [_ ->].
    vm_compute. reflexivity.
Defined.


(** ** C8: the rate limit *)

(** The handler itself never raises the limiter's exception. *)
Lemma heartbeat_never_limits (c : HeartbeatCtx) (w : World) :
  fst (subsection_heartbeat c w) <> inl RateLimitExceeded.
Proof.
  intros H.
  destruct (heartbeat_exception c w _ H) as [[H' | [H' | H']] | [[H' _] | [H' _]]];
    discriminate H'.
Qed.

(** The limiter's side of a request: only a heartbeat touches the storage,
    and a request is limited exactly when the limiter turns it away. *)
Lemma step_limiter (op : Op) (s : Server) :
  match op with
  | OpHeartbeat request t _ =>
      let h := Limiter.hit Limiter.four_per_minute (get_remote_address request) t
                 (storage s) in
      storage (snd (step op s)) = snd h /\
      limited (fst (step op s)) = negb (fst h)
  | _ =>
      storage (snd (step op s)) = storage s /\
      limited (fst (step op s)) = false
  end.
Proof.
  destruct op as [new_id user subsection now | request t c
                 | user subsection now_duration now_end]; cbn [step].
  - rewrite start_effect. split; reflexivity.
  - rewrite endpoint_unfold. cbv zeta.
    destruct (fst (Limiter.hit _ _ _ _)); cbn [fst snd storage];
      [| split; reflexivity].
    split; [reflexivity |].
    pose proof (heartbeat_never_limits c (world s)) as Hnl.
    destruct (fst (subsection_heartbeat c (world s))) as [[| | |]|]; try reflexivity.
    congruence.
  - destruct (rows (world s) !! (user, subsection)) as [p|] eqn:Hrow.
    + destruct (complete_effect user subsection now_duration now_end (world s) p Hrow)
        as (p' & E & _).
      rewrite E. split; reflexivity.
    + rewrite (complete_no_row _ _ _ _ _ Hrow). split; reflexivity.
Qed.

(** Inside an open window that has counted [n] attempts, the limiter lets
    through the next [4 - n] attempts of the address and no more. *)
Lemma admitted_in_open_window (host : string) (ops : list Op) :
  forall (s : Server) (n : Z) (expiry : datetime),
    storage s !! host = Some (n, expiry) ->
    0 <= n ->
    Forall (before expiry) ops ->
    admitted_from host ops s
    = Nat.min (Z.to_nat (4 - n)) (length (List.filter (from_host host) ops)).
Proof.
  induction ops as [|op ops IH]; intros s n expiry Hst Hn Hall.
  - simpl. lia.
  - apply Forall_cons in Hall as [Hop Hops].
    cbn [admitted_from List.filter].
    pose proof (step_limiter op s) as Hlim.
    destruct op as [new_id user subsection now | request t c
                   | user subsection now_duration now_end];
      cbn [from_host] in *.
    + destruct Hlim as [Hst' _]. cbn [andb Nat.add].
      apply (IH _ n expiry); [now rewrite Hst' | assumption | assumption].
    + cbv zeta in Hlim. destruct Hlim as [Hst' Hl].
      unfold Limiter.hit in Hst', Hl. cbn [fst snd] in Hst', Hl.
      destruct (decide (get_remote_address request = host)) as [Heq | Hne].
      * rewrite bool_decide_eq_true_2 by assumption.
        rewrite <- Heq in Hst. rewrite Hst in Hst', Hl.
        simpl in Hop. apply Z.ltb_lt in Hop. rewrite Hop in Hst', Hl.
        cbn [fst Limiter.amount Limiter.four_per_minute] in Hl.
        rewrite Hl, negb_involutive. cbn [andb length].
        rewrite (IH _ (n + 1) expiry);
          [| rewrite Hst', Heq; apply lookup_insert_eq | lia | assumption].
        destruct (Z.leb_spec (n + 1) 4); lia.
      * rewrite bool_decide_eq_false_2 by assumption. cbn [andb Nat.add].
        apply (IH _ n expiry); [| assumption | assumption].
        rewrite Hst', lookup_insert_ne by assumption. exact Hst.
    + destruct Hlim as [Hst' _]. cbn [andb Nat.add].
      apply (IH _ n expiry); [now rewrite Hst' | assumption | assumption].
Qed.

Lemma admitted_in_window (host : string) (t0 : datetime) (ops : list Op) :
  forall s : Server,
    window_closed host t0 s ->
    Forall (in_window t0) ops ->
    admitted_from host ops s
    = Nat.min 4 (length (List.filter (from_host host) ops)).
Proof.
  induction ops as [|op ops IH]; intros s Hclosed Hall.
  - reflexivity.
  - apply Forall_cons in Hall as [Hop Hops].
    cbn [admitted_from List.filter].
    pose proof (step_limiter op s) as Hlim.
    destruct op as [new_id user subsection now | request t c
                   | user subsection now_duration now_end];
      cbn [from_host] in *.
    + destruct Hlim as [Hst' _]. cbn [andb Nat.add].
      apply IH; [| assumption]. unfold window_closed. now rewrite Hst'.
    + cbv zeta in Hlim. destruct Hlim as [Hst' Hl].
      unfold Limiter.hit in Hst', Hl. cbn [fst snd] in Hst', Hl.
      simpl in Hop.
      destruct (decide (get_remote_address request = host)) as [Heq | Hne].
      * rewrite bool_decide_eq_true_2 by assumption.
        assert (Hfresh :
          match storage s !! get_remote_address request with
          | Some (n, expiry) =>
              if t <? expiry then (n + 1, expiry)
              else (1, t + Limiter.per Limiter.four_per_minute)
          | None => (1, t + Limiter.per Limiter.four_per_minute)
          end = (1, t + 60 * 1000000)).
        { unfold window_closed in Hclosed. rewrite Heq.
          destruct (storage s !! host) as [[n expiry]|]; [| reflexivity].
          destruct (Z.ltb_spec t expiry); [lia | reflexivity]. }
        rewrite Hfresh in Hst', Hl.
        cbn [fst Limiter.amount Limiter.four_per_minute] in Hl.
        rewrite Hl. cbn [negb andb length Z.leb Z.compare Pos.compare Pos.compare_cont].
        rewrite (admitted_in_open_window host ops _ 1 (t + 60 * 1000000)).
        -- simpl Z.to_nat. lia.
        -- rewrite Hst', Heq. apply lookup_insert_eq.
        -- lia.
        -- eapply Forall_impl; [exact Hops |].
           intros [| request' t' c' |]; simpl; [trivial | lia | trivial].
      * rewrite bool_decide_eq_false_2 by assumption. cbn [andb Nat.add].
        apply IH; [| assumption].
        unfold window_closed. rewrite Hst', lookup_insert_ne by assumption.
        exact Hclosed.
    + destruct Hlim as [Hst' _]. cbn [andb Nat.add].
      apply IH; [| assumption]. unfold window_closed. now rewrite Hst'.
Qed.

(** C8, as the design text words it, fails: the limiter does not count by
    (user, subsection). After four heartbeats of user 1 on subsection 1, a
    first heartbeat of user 2 on subsection 2 from the same address is
    turned away. *)
Lemma limiter_keyed_by_pair_fails :
  ~ (forall ops s request t c,
       storage s = ∅ ->
       (attempts_of_pair (ctx_user c) (ctx_subsection_id c) ops < 4)%nat ->
       fst (step (OpHeartbeat request t c) (run ops s)) <> Some RateLimitExceeded).
Proof.
  intros H.
  apply (H four_from_one_host empty_server shared_host 4000000
           (ctx_of_pair 2 2 4000000)).
  - reflexivity.
  - vm_compute. lia.
  - vm_compute. reflexivity.
Qed.

(** C8 (amended): the limiter in front of the heartbeat is a fixed-window
    limiter keyed by the remote address of the request: of the heartbeats
    that one address sends within the 60 seconds after a moment at which
    it has no open window, the first four get past the limiter and no
    other, whichever users and subsections they are for. An attempt over
    the limit raises the limiter's exception before the handler runs: the
    outcome is the same whatever the bot detector and the validator would
    have read, and the world, rows and events, is as it was. *)
Theorem limiter_contract :
  (forall host t0 ops s,
     window_closed host t0 s ->
     Forall (in_window t0) ops ->
     admitted_from host ops s
     = Nat.min 4 (length (List.filter (from_host host) ops))) /\
  (forall request t c s,
     fst (heartbeat_endpoint request t c s) = inl RateLimitExceeded ->
     world (snd (heartbeat_endpoint request t c s)) = world s /\
     forall c', heartbeat_endpoint request t c' s = heartbeat_endpoint request t c s).
Proof.
  split; [apply admitted_in_window |].
  intros request t c s H. rewrite endpoint_unfold in H |- *. cbv zeta in *.
  destruct (fst (Limiter.hit _ _ _ _)) eqn:Hhit.
  - cbn [fst] in H. now apply heartbeat_never_limits in H.
  - split; [reflexivity |].
    intros c'. rewrite endpoint_unfold. cbv zeta. now rewrite Hhit.
Qed.

Lemma limiter_contract_witness :
  admitted_from "10.0.0.1"
    (four_from_one_host ++ [OpHeartbeat shared_host 4000000 (ctx_of_pair 2 2 4000000)])
    empty_server = 4%nat /\
  world (snd (heartbeat_endpoint shared_host 4000000 (ctx_of_pair 2 2 4000000)
                (run four_from_one_host empty_server)))
  = world (run four_from_one_host empty_server).
Proof.
  destruct limiter_contract as [Hwin Hrej]. split.
  - rewrite (Hwin "10.0.0.1" 0); [reflexivity | exact I |].
    unfold four_from_one_host. repeat constructor; simpl; lia.
  - apply Hrej. vm_compute. reflexivity.
Defined.

(** * Further properties of the handlers *)

(** ** The completion policy: range, growth, threshold *)

Ltac ratio :=
  unfold Qle, Qdiv, Qmult, Qinv, inject_Z; cbn -[Z.mul Pos.mul];
  rewrite ?Pos.mul_1_r, ?Pos.mul_1_l; cbn -[Z.mul Pos.mul]; try lia; try nia.

Lemma ratio_nonneg (t m : Z) :
  0 <= t -> 0 < m -> (0 <= inject_Z t / inject_Z m * 100)%Q.
Proof. intros Ht Hm. destruct m as [|m|m]; try lia. ratio. Qed.

Lemma ratio_le (t1 t2 m : Z) :
  t1 <= t2 -> 0 < m ->
  (inject_Z t1 / inject_Z m * 100 <= inject_Z t2 / inject_Z m * 100)%Q.
Proof. intros Ht Hm. destruct m as [|m|m]; try lia. ratio. Qed.

Lemma ratio_full (t m : Z) :
  0 < m -> ((100 <= inject_Z t / inject_Z m * 100)%Q <-> m <= t).
Proof. intros Hm. destruct m as [|m|m]; try lia. ratio. Qed.

Lemma ratio_nonpos (t m : Z) :
  0 <= t -> m < 0 -> (inject_Z t / inject_Z m * 100 <= 0)%Q.
Proof. intros Ht Hm. destruct m as [|m|m]; try lia. ratio. Qed.

Lemma py_min_le_r (a b : Q) : (py_min a b <= b)%Q.
Proof. rewrite py_min_Qmin. apply Q.le_min_l. Qed.

Lemma py_min_le_l (a b : Q) : (py_min a b <= a)%Q.
Proof. rewrite py_min_Qmin. apply Q.le_min_r. Qed.

Lemma py_min_glb (a b c : Q) : (c <= a)%Q -> (c <= b)%Q -> (c <= py_min a b)%Q.
Proof. intros Ha Hb. rewrite py_min_Qmin. now apply Q.min_glb. Qed.

(** The policy unfolded on its three cases: no recommended time and the
    floor reached, no recommended time and the floor not reached, a
    recommended time. *)
Lemma completion_cases (p : SubsectionProgress) (s : Subsection) :
  let t := time_spent_seconds p in
  (truthy (required_time_minutes s) = false /\
   or_default (min_time_seconds s) 30 <= t /\
   calculate_subsection_completion p s = 100%Q) \/
  (truthy (required_time_minutes s) = false /\
   t < or_default (min_time_seconds s) 30 /\
   calculate_subsection_completion p s
   = (inject_Z t / inject_Z (or_default (min_time_seconds s) 30) * 100)%Q) \/
  (exists r,
     required_time_minutes s = Some r /\ r <> 0 /\
     calculate_subsection_completion p s
     = py_min (inject_Z t / inject_Z (r * 60) * 100)%Q 100%Q).
Proof.
  cbv zeta. unfold calculate_subsection_completion.
  destruct (truthy (required_time_minutes s)) eqn:Htr; simpl negb; cbv iota.
  - right. right. destruct (required_time_minutes s) as [r|]; [| discriminate Htr].
    exists r. split; [reflexivity |]. split; [| reflexivity].
    simpl in Htr. apply negb_true_iff, Z.eqb_neq in Htr. exact Htr.
  - destruct (Z.geb_spec (time_spent_seconds p) (or_default (min_time_seconds s) 30)).
    + left. repeat split. assumption.
    + right. left. repeat split. assumption.
Qed.

(** The percentage of a row with a non-negative time spent is never above
    100, whatever the policy, and never below 0 unless the recommended time
    is negative. *)
Theorem completion_range (p : SubsectionProgress) (s : Subsection) :
  0 <= time_spent_seconds p ->
  (calculate_subsection_completion p s <= 100)%Q /\
  (required_not_negative s -> (0 <= calculate_subsection_completion p s)%Q).
Proof.
  intros Ht.
  destruct (completion_cases p s)
    as [(_ & _ & ->) | [(_ & Hlt & ->) | (r & Hr & Hnz & ->)]].
  - split; [apply Qle_refl | intros _; unfold Qle; simpl; lia].
  - split.
    + assert (Hpos : 0 < or_default (min_time_seconds s) 30) by lia.
      apply Qlt_le_weak, Qnot_le_lt. intros H.
      apply (proj1 (ratio_full _ _ Hpos)) in H. lia.
    + intros _. apply ratio_nonneg; lia.
  - split; [apply py_min_le_r |].
    unfold required_not_negative. rewrite Hr. intros Hr0.
    apply py_min_glb; [apply ratio_nonneg; lia | unfold Qle; simpl; lia].
Qed.

Lemma completion_range_witness :
  (calculate_subsection_completion (row_with_time 600) policy_five_minutes <= 100)%Q /\
  (0 <= calculate_subsection_completion (row_with_time 600) policy_five_minutes)%Q.
Proof.
  destruct (completion_range (row_with_time 600) policy_five_minutes) as [Hle Hge];
    [simpl; lia |].
  split; [exact Hle | apply Hge; unfold required_not_negative; simpl; lia].
Defined.

(** More time spent never lowers the percentage, the recommended time not
    being negative. *)
Theorem completion_monotone (p1 p2 : SubsectionProgress) (s : Subsection) :
  0 <= time_spent_seconds p1 ->
  time_spent_seconds p1 <= time_spent_seconds p2 ->
  required_not_negative s ->
  (calculate_subsection_completion p1 s <= calculate_subsection_completion p2 s)%Q.
Proof.
  intros H0 Hle Hreq.
  destruct (completion_cases p1 s)
    as [(Htr1 & Hm1 & ->) | [(Htr1 & Hm1 & ->) | (r1 & Hr1 & Hnz1 & ->)]];
    destruct (completion_cases p2 s)
    as [(Htr2 & Hm2 & ->) | [(Htr2 & Hm2 & ->) | (r2 & Hr2 & Hnz2 & ->)]];
    try (rewrite Hr2 in Htr1; rewrite (truthy_Some r2 Hnz2) in Htr1; discriminate Htr1);
    try (rewrite Hr1 in Htr2; rewrite (truthy_Some r1 Hnz1) in Htr2; discriminate Htr2).
  - apply Qle_refl.
  - lia.
  - assert (Hpos : 0 < or_default (min_time_seconds s) 30) by lia.
    apply Qlt_le_weak, Qnot_le_lt. intros H.
    apply (proj1 (ratio_full _ _ Hpos)) in H. lia.
  - apply ratio_le; lia.
  - rewrite Hr1 in Hr2. injection Hr2 as <-.
    unfold required_not_negative in Hreq. rewrite Hr1 in Hreq.
    apply py_min_glb; [| apply py_min_le_r].
    eapply Qle_trans; [apply py_min_le_l |]. apply ratio_le; lia.
Qed.

Lemma completion_monotone_witness :
  (calculate_subsection_completion (row_with_time 15) policy_floor_only
   <= calculate_subsection_completion (row_with_time 30) policy_floor_only)%Q.
Proof.
  apply completion_monotone; [simpl; lia | simpl; lia | exact I].
Defined.

(** A row with a non-negative time spent is at 100 exactly when the time
    has reached the threshold of the policy: the recommended minutes times
    60 when they are set, the floor (30 by default) otherwise. *)
Theorem completion_reached (p : SubsectionProgress) (s : Subsection) :
  0 <= time_spent_seconds p ->
  required_not_negative s ->
  ((100 <= calculate_subsection_completion p s)%Q
   <-> completion_threshold s <= time_spent_seconds p).
Proof.
  intros Ht Hreq. unfold completion_threshold.
  destruct (completion_cases p s)
    as [(Htr & Hm & ->) | [(Htr & Hm & ->) | (r & Hr & Hnz & ->)]].
  - rewrite Htr. split; [intros _; exact Hm | intros _; apply Qle_refl].
  - rewrite Htr. rewrite ratio_full by lia. reflexivity.
  - rewrite Hr, (truthy_Some r Hnz).
    unfold required_not_negative in Hreq. rewrite Hr in Hreq.
    rewrite <- (ratio_full (time_spent_seconds p) (r * 60)) by lia.
    split; intros H.
    + eapply Qle_trans; [exact H | apply py_min_le_l].
    + apply py_min_glb; [exact H | apply Qle_refl].
Qed.

Lemma completion_reached_witness :
  (100 <= calculate_subsection_completion (row_with_time 300) policy_five_minutes)%Q.
Proof.
  apply (completion_reached (row_with_time 300) policy_five_minutes);
    [simpl; lia | unfold required_not_negative; simpl; lia | vm_compute; discriminate].
Defined.

(** A negative recommended time makes the subsection impossible to
    complete: the percentage of a row with a non-negative time spent is at
    most 0. *)
Theorem negative_required_time_never_completes
    (p : SubsectionProgress) (s : Subsection) (r : Z) :
  required_time_minutes s = Some r ->
  r < 0 ->
  0 <= time_spent_seconds p ->
  (calculate_subsection_completion p s <= 0)%Q /\
  ~ (100 <= calculate_subsection_completion p s)%Q.
Proof.
  intros Hr Hneg Ht.
  assert (Hle : (calculate_subsection_completion p s <= 0)%Q).
  { destruct (completion_cases p s)
      as [(Htr & _) | [(Htr & _) | (r' & Hr' & Hnz & ->)]].
    - rewrite Hr, truthy_Some in Htr by lia. discriminate Htr.
    - rewrite Hr, truthy_Some in Htr by lia. discriminate Htr.
    - rewrite Hr in Hr'. injection Hr' as <-.
      eapply Qle_trans; [apply py_min_le_l |]. apply ratio_nonpos; lia. }
  split; [exact Hle |].
  intros H. pose proof (Qle_trans _ _ _ H Hle) as Habs.
  unfold Qle in Habs. simpl in Habs. lia.
Qed.

Lemma negative_required_time_never_completes_witness :
  (calculate_subsection_completion (row_with_time 600) policy_negative_minutes
   <= 0)%Q.
Proof.
  apply (negative_required_time_never_completes (row_with_time 600)
           policy_negative_minutes (-5));
    [reflexivity | lia | simpl; lia].
Defined.

(** ** The validator: its verdict in closed form *)

(** The validator in closed form: verdict, row and warnings. *)
Lemma validate_activity_closed_form p now ri act (w : World) :
  let ok := passes_interval_checks p now ri && negb (3 <? act) in
  exists logs,
    validate_activity p now ri act w
    = (inr (ok, if ok && session_expired p now
                then set_session_start_at (Some now) p else p),
       logged w logs) /\
    (length logs <= 1)%nat /\
    (logs = [] <-> ok && negb (session_expired p now) = true).
Proof.
  cbv zeta. unfold session_expired.
  destruct (passes_interval_checks p now ri) eqn:Hpass.
  - rewrite validate_after_intervals by assumption.
    destruct (3 <? act); cbn [negb andb].
    + eexists. split; [reflexivity |]. split; [simpl; lia |].
      split; discriminate.
    + destruct (session_start_at p) as [start|].
      * destruct (Qlt_bool 7200 (total_seconds now start)); cbn [negb].
        -- eexists. split; [reflexivity |]. split; [simpl; lia |].
           split; discriminate.
        -- exists []. unfold logged. rewrite app_nil_r, world_eta.
           split; [reflexivity |]. split; [simpl; lia |]. split; reflexivity.
      * exists []. unfold logged. rewrite app_nil_r, world_eta.
        split; [reflexivity |]. split; [simpl; lia |]. split; reflexivity.
  - cbn [andb]. unfold passes_interval_checks in Hpass.
    destruct (last_activity_at p) as [l|] eqn:Hl; [| discriminate Hpass].
    destruct (Qlt_bool (total_seconds now l) 10) eqn:Hfreq.
    + eexists. split.
      * apply validate_too_frequent with (l := l); [assumption |].
        now apply Qlt_bool_iff.
      * split; [simpl; lia | split; discriminate].
    + simpl in Hpass. apply negb_false_iff in Hpass.
      apply andb_true_iff in Hpass as [Hb Hall].
      eexists. split.
      * now apply validate_suspicious with (l := l).
      * split; [simpl; lia | split; discriminate].
Qed.

(** [validate_activity] never raises and never touches the stored rows.
    It accepts exactly when the two interval checks pass and the user has
    at most three open sessions. It logs one warning on a rejection and on
    a rotation, none otherwise. The row it leaves is the row it was given,
    except that an accepted row whose session is older than 7200 seconds
    has its [session_start_at] set to now. *)
Theorem validate_activity_verdict p now ri act (w : World) :
  let ok := passes_interval_checks p now ri && negb (3 <? act) in
  exists logs,
    validate_activity p now ri act w
    = (inr (ok, if ok && session_expired p now
                then set_session_start_at (Some now) p else p),
       logged w logs) /\
    (length logs <= 1)%nat /\
    (logs = [] <-> ok && negb (session_expired p now) = true).
Proof. apply validate_activity_closed_form. Qed.

Lemma validate_activity_verdict_witness :
  exists logs,
    validate_activity (row_active (Some 0)) 20000000 [] 0 (mkWorld ∅ [])
    = (inr (true, row_active (Some 0)), logged (mkWorld ∅ []) logs) /\
    logs = [].
Proof.
  destruct (validate_activity_verdict (row_active (Some 0)) 20000000 [] 0
              (mkWorld ∅ [])) as (logs & E & _ & Hnil).
  exists logs. split; [exact E |]. apply Hnil. reflexivity.
Defined.

(** ** The bot detector: what it raises, what its verdict depends on *)

Lemma created_at_intervals_short (acts : list datetime) (n : nat) :
  (length acts <= n)%nat -> (0 < n)%nat -> created_at_intervals acts n = None.
Proof.
  intros Hlen Hn. unfold created_at_intervals.
  destruct (mapM _ (seq 0 n)) as [l|] eqn:E; [| reflexivity].
  exfalso.
  assert (His : is_Some (mapM (fun i =>
            match acts !! S i, acts !! i with
            | Some a, Some b => Some (total_seconds a b)
            | _, _ => None
            end) (seq 0 n))) by (rewrite E; eauto).
  apply mapM_is_Some in His.
  rewrite Forall_forall in His.
  specialize (His (n - 1)%nat).
  assert (Hin : (n - 1)%nat ∈ seq 0 n) by (apply elem_of_seq; lia).
  specialize (His Hin). simpl in His.
  rewrite (lookup_ge_None_2 acts (S (n - 1))) in His by lia.
  now destruct His.
Qed.

(** With at least ten activities in the window, the detector raises
    [NameError] when the name [activities] has no binding and [IndexError]
    when it is bound to a list shorter than the window. The exception goes
    through the heartbeat untouched: it is raised before any row is read,
    nothing is logged and nothing is stored. *)
Theorem detect_bot_activity_raises :
  (forall sd recent user w,
     (10 <= length recent)%nat ->
     detect_bot_activity sd None recent user w = (inl NameError, w)) /\
  (forall sd acts recent user w,
     (10 <= length recent)%nat ->
     (length acts < length recent)%nat ->
     detect_bot_activity sd (Some acts) recent user w = (inl IndexError, w)) /\
  (forall c w e,
     detect_bot_activity (ctx_stdev c) (ctx_activities c) (ctx_recent_activities c)
       (ctx_user c) w = (inl e, w) ->
     subsection_heartbeat c w = (inl e, w)).
Proof.
  repeat split.
  - intros sd recent user w Hlen. unfold detect_bot_activity.
    apply Nat.ltb_ge in Hlen. now rewrite Hlen.
  - intros sd acts recent user w Hlen Hshort. unfold detect_bot_activity.
    apply Nat.ltb_ge in Hlen as Hlen'. rewrite Hlen'.
    rewrite created_at_intervals_short by lia. reflexivity.
  - intros c w e E. now rewrite (heartbeat_flagged c w w (inl e) E).
Qed.

Lemma detect_bot_activity_raises_witness :
  subsection_heartbeat
    (mkHeartbeatCtx 1 1 stdev_of_equal_samples None regular_activities [] 0
       policy_floor_only 0 0)
    (world_of (row_active None))
  = (inl NameError, world_of (row_active None)).
Proof.
  destruct detect_bot_activity_raises as (Hname & _ & Hhb).
  apply Hhb. apply Hname. simpl. lia.
Defined.





(** ** The heartbeat: when it is accepted and what it writes *)

(** The heartbeat in closed form, once the detector has let it through and
    the row is there. *)
Lemma heartbeat_closed_form (c : HeartbeatCtx) (w : World) p :
  detect_bot_activity (ctx_stdev c) (ctx_activities c) (ctx_recent_activities c) (ctx_user c) w
  = (inr false, w) ->
  rows w !! key c = Some p ->
  let now := ctx_now_validate c in
  let ok := passes_interval_checks p now (ctx_recent_intervals c)
            && negb (3 <? ctx_active_sessions c) in
  exists logs,
    forallb is_log logs = true /\
    subsection_heartbeat c w
    = if ok then
        (inr (response_of (settled c (rotated p now))),
         mkWorld (<[key c := settled c (rotated p now)]> (rows w))
           (events w ++ logs
            ++ (if crosses c (rotated p now) then cascade_of c else [])))
      else (inl (HTTPException HTTP_429_TOO_MANY_REQUESTS), logged w logs).
Proof.
  intros Hbot Hrow now ok.
  destruct (validate_activity_closed_form p now (ctx_recent_intervals c)
              (ctx_active_sessions c) w) as (logs & Eval & Hlen & _).
  fold ok in Eval.
  exists logs. split.
  - destruct logs as [|ev [|ev' logs]]; [reflexivity | | simpl in Hlen; lia].
    destruct (validate_activity_effect p now (ctx_recent_intervals c)
                (ctx_active_sessions c) w) as (ok' & p' & logs' & E' & Hlogs' & _).
    rewrite Eval in E'. injection E' as _ _ Hev.
    apply app_inv_head in Hev. now subst logs'.
  - rewrite (heartbeat_validated c w _ p _ ok Hbot Hrow Eval).
    destruct ok; [| reflexivity].
    cbn [andb logged rows events]. unfold rotated.
    now rewrite <- app_assoc.
Qed.

(** A heartbeat returns a response exactly when the detector returns
    False, the row of the pair exists, the two interval checks pass and
    the user has at most three open sessions. *)
Theorem heartbeat_accepted_iff (c : HeartbeatCtx) (w : World) :
  (exists resp w', subsection_heartbeat c w = (inr resp, w')) <->
  fst (detect_bot_activity (ctx_stdev c) (ctx_activities c) (ctx_recent_activities c)
         (ctx_user c) w) = inr false /\
  exists p,
    rows w !! key c = Some p /\
    passes_interval_checks p (ctx_now_validate c) (ctx_recent_intervals c) = true /\
    ctx_active_sessions c <= 3.
Proof.
  destruct (detect_bot_activity_effect (ctx_stdev c) (ctx_activities c)
              (ctx_recent_activities c) (ctx_user c) w)
    as (r & blogs & Ebot & Hbot).
  assert (Hdec : r = inr false \/ r <> inr false).
  { destruct r as [e | [|]]; [right | right | left]; congruence. }
  destruct Hdec as [-> | Hr].
  2:{ rewrite (heartbeat_flagged c w _ r Ebot Hr), Ebot. cbn [fst].
      split; [intros (resp & w' & E); discriminate E | intros [Hr' _]; congruence]. }
  destruct Hbot as [[Hr _] | [_ ->]]; [discriminate Hr |].
  rewrite app_nil_r, world_eta in Ebot. rewrite Ebot. cbn [fst].
  destruct (rows w !! key c) as [p|] eqn:Hrow.
  2:{ rewrite (heartbeat_no_row c w Ebot Hrow).
      split; [intros (resp & w' & E); discriminate E |].
      intros [_ (p & Hp & _)]. discriminate Hp. }
  destruct (heartbeat_closed_form c w p Ebot Hrow) as (logs & _ & E).
  cbv zeta in E. rewrite E.
  destruct (passes_interval_checks p _ _) eqn:Hpass;
    destruct (Z.ltb_spec 3 (ctx_active_sessions c)); cbn [andb negb].
  - split; [intros (resp & w' & E'); discriminate E' |].
    intros [_ (p' & Hp' & _ & Hact)]. lia.
  - split; [| eauto]. intros _. split; [reflexivity |].
    exists p. split; [reflexivity |]. split; [exact Hpass | lia].
  - split; [intros (resp & w' & E'); discriminate E' |].
    intros [_ (p' & [= <-] & Hp' & _)]. congruence.
  - split; [intros (resp & w' & E'); discriminate E' |].
    intros [_ (p' & [= <-] & Hp' & _)]. congruence.
Qed.

Lemma heartbeat_accepted_iff_witness :
  exists resp w',
    subsection_heartbeat (ctx_at 20000000 20000000) (world_of (row_active (Some 0)))
    = (inr resp, w').
Proof.
  apply (heartbeat_accepted_iff (ctx_at 20000000 20000000)
           (world_of (row_active (Some 0)))).
  split; [reflexivity |].
  exists (row_active (Some 0)). split; [reflexivity |].
  split; [reflexivity | simpl; lia].
Defined.

Lemma int_time_increment_le_60 (p : SubsectionProgress) (now : datetime) :
  int (time_increment p now) <= 60.
Proof.
  unfold time_increment. destruct (last_activity_at p) as [l|];
    [| vm_compute; discriminate].
  unfold py_min. destruct (Qlt_bool 60 (total_seconds now l)) eqn:E;
    [vm_compute; discriminate |].
  apply Qlt_bool_false_iff in E.
  assert (E' : now - l <= 60 * 1000000).
  { unfold total_seconds, Qle, MICROS in E. simpl in E. lia. }
  rewrite int_total_seconds. apply Z.quot_le_upper_bound; lia.
Qed.

Lemma int_py_min_le_elapsed (now l : datetime) :
  0 <= now - l ->
  int (py_min (total_seconds now l) 60) * 1000000 <= now - l.
Proof.
  intros H. unfold py_min. destruct (Qlt_bool 60 (total_seconds now l)) eqn:E.
  - apply Qlt_bool_iff in E. unfold total_seconds, Qlt, MICROS in E.
    simpl in E. change (int 60%Q) with 60. lia.
  - rewrite int_total_seconds.
    pose proof (Z.mul_quot_le (now - l) 1000000 H ltac:(lia)). lia.
Qed.

(** No accepted heartbeat credits more than 60 seconds, whatever the
    clocks read; and when the interval since the last activity is not
    negative, the credit is never more than that interval. *)
Theorem heartbeat_credit_capped (c : HeartbeatCtx) (w w' : World) resp :
  subsection_heartbeat c w = (inr resp, w') ->
  exists p p',
    rows w !! key c = Some p /\
    rows w' !! key c = Some p' /\
    time_spent_seconds p' <= time_spent_seconds p + 60 /\
    (forall l, last_activity_at p = Some l ->
       0 <= ctx_now c - l ->
       (time_spent_seconds p' - time_spent_seconds p) * 1000000 <= ctx_now c - l).
Proof.
  intros E.
  destruct (heartbeat_accepted c w w' resp E)
    as (p & pv & logs & Hrow & Hpv & _ & _ & _ & Hrows & _).
  destruct (passed_row_fields p pv _ Hpv) as (Ht & Hl & _ & _).
  exists p, (settled c pv). split; [assumption |].
  split; [rewrite Hrows; apply lookup_insert_eq |].
  rewrite settled_time_spent, Ht. split.
  - pose proof (int_time_increment_le_60 pv (ctx_now c)). lia.
  - intros l Hlast Hnn. unfold time_increment. rewrite Hl, Hlast.
    pose proof (int_py_min_le_elapsed (ctx_now c) l Hnn). lia.
Qed.

Lemma heartbeat_credit_capped_witness :
  exists p p',
    rows (world_of (row_active (Some 0))) !! key (ctx_at 90000000 90000000) = Some p /\
    rows (snd (subsection_heartbeat (ctx_at 90000000 90000000)
                 (world_of (row_active (Some 0)))))
      !! key (ctx_at 90000000 90000000) = Some p' /\
    time_spent_seconds p' <= time_spent_seconds p + 60.
Proof.
  destruct (subsection_heartbeat (ctx_at 90000000 90000000)
              (world_of (row_active (Some 0)))) as [[e|resp] w'] eqn:E;
    [vm_compute in E; discriminate E |].
  destruct (heartbeat_credit_capped _ _ _ _ E) as (p & p' & Hp & Hp' & Hle & _).
  exists p, p'. auto.
Defined.

Lemma settled_frame c pv :
  progress_id (settled c pv) = progress_id pv /\
  user_id (settled c pv) = user_id pv /\
  subsection_id (settled c pv) = subsection_id pv /\
  session_start_at (settled c pv) = session_start_at pv /\
  activity_sessions (settled c pv) = activity_sessions pv.
Proof. unfold settled. destruct (crosses c pv); repeat split. Qed.

Lemma settled_viewed c pv :
  (crosses c pv = true ->
   is_viewed (settled c pv) = true /\ viewed_at (settled c pv) = Some (ctx_now c)) /\
  (crosses c pv = false ->
   is_viewed (settled c pv) = is_viewed pv /\ viewed_at (settled c pv) = viewed_at pv).
Proof. unfold settled. split; intros ->; split; reflexivity. Qed.

(** After an accepted heartbeat the stored fields agree with each other:
    the stored percentage is the policy applied to the stored time, the
    row is completed exactly when it was already or the percentage is at
    least 100 (so a row at 100 is never left not completed), the response
    repeats the stored row and advises 15 seconds, and [is_viewed] and
    [viewed_at] are written at the crossing and only then. *)
Theorem heartbeat_row_consistent (c : HeartbeatCtx) (w w' : World) resp :
  subsection_heartbeat c w = (inr resp, w') ->
  exists p p',
    rows w !! key c = Some p /\
    rows w' !! key c = Some p' /\
    completion_percentage p'
    = calculate_subsection_completion p' (ctx_subsection c) /\
    is_completed p'
    = is_completed p || Qle_bool 100 (completion_percentage p') /\
    resp = mkHeartbeatResponse (time_spent_seconds p') (completion_percentage p')
             (is_completed p') 15 /\
    (is_completed p = false -> is_completed p' = true ->
     is_viewed p' = true /\ viewed_at p' = Some (ctx_now c)) /\
    (is_completed p' = is_completed p ->
     is_viewed p' = is_viewed p /\ viewed_at p' = viewed_at p).
Proof.
  intros E.
  destruct (heartbeat_accepted c w w' resp E)
    as (p & pv & logs & Hrow & Hpv & _ & _ & -> & Hrows & _).
  destruct (passed_row_fields p pv _ Hpv) as (_ & _ & Hc & _).
  assert (Hview : is_viewed pv = is_viewed p /\ viewed_at pv = viewed_at p)
    by (destruct Hpv as [-> | ->]; split; reflexivity).
  destruct Hview as [Hv Hva].
  exists p, (settled c pv). split; [assumption |].
  split; [rewrite Hrows; apply lookup_insert_eq |].
  destruct (settled_viewed c pv) as [Hcross Hquiet].
  rewrite settled_is_completed, settled_completion, Hc.
  assert (Hcr : crosses c pv
                = Qle_bool 100 (completion_percentage (credited c pv))
                  && negb (is_completed p))
    by (unfold crosses; now rewrite Hc).
  split; [| split; [| split; [| split]]].
  - unfold settled. destruct (crosses c pv); reflexivity.
  - rewrite Hcr. destruct (is_completed p), (Qle_bool 100 _); reflexivity.
  - unfold response_of. now rewrite settled_is_completed, settled_completion, Hc.
  - intros Hnot Hdone. rewrite Hnot in Hdone, Hcr. cbn [orb negb] in Hdone.
    apply Hcross. exact Hdone.
  - intros Hsame. rewrite <- Hv, <- Hva. apply Hquiet.
    destruct (crosses c pv) eqn:Hx; [| reflexivity].
    rewrite orb_true_r in Hsame. rewrite <- Hsame in Hcr.
    rewrite andb_false_r in Hcr. discriminate Hcr.
Qed.

Lemma heartbeat_row_consistent_witness :
  exists p',
    rows (snd (subsection_heartbeat (ctx_at 40000000 40000000)
                 (world_of (row_active (Some 0))))) !! (1, 1) = Some p' /\
    completion_percentage p'
    = calculate_subsection_completion p' policy_floor_only.
Proof.
  destruct (subsection_heartbeat (ctx_at 40000000 40000000)
              (world_of (row_active (Some 0)))) as [[e|resp] w'] eqn:E;
    [vm_compute in E; discriminate E |].
  destruct (heartbeat_row_consistent _ _ _ _ E) as (p & p' & _ & Hp' & Hpct & _).
  exists p'. split; [exact Hp' | exact Hpct].
Defined.

(** A heartbeat never opens or closes a session and never writes the
    history: the committed row keeps its identifiers and its
    [activity_sessions]; its [session_start_at] is the old one, or the
    validator's now when the old one was more than 7200 seconds back; in
    particular a heartbeat on a closed session credits time and leaves the
    session closed. *)
Theorem heartbeat_keeps_sessions (c : HeartbeatCtx) (w w' : World) resp :
  subsection_heartbeat c w = (inr resp, w') ->
  exists p p',
    rows w !! key c = Some p /\
    rows w' !! key c = Some p' /\
    progress_id p' = progress_id p /\
    user_id p' = user_id p /\
    subsection_id p' = subsection_id p /\
    activity_sessions p' = activity_sessions p /\
    session_start_at p'
    = (if session_expired p (ctx_now_validate c)
       then Some (ctx_now_validate c) else session_start_at p) /\
    (session_start_at p = None -> session_start_at p' = None).
Proof.
  intros E.
  destruct (detect_bot_activity_effect (ctx_stdev c) (ctx_activities c)
              (ctx_recent_activities c) (ctx_user c) w)
    as (r & blogs & Ebot & Hbot).
  assert (Hr : r = inr false).
  { destruct r as [e | [|]]; [| | reflexivity];
      rewrite (heartbeat_flagged c w _ _ Ebot) in E by discriminate;
      discriminate E. }
  subst r. destruct Hbot as [[Hr _] | [_ ->]]; [discriminate Hr |].
  rewrite app_nil_r, world_eta in Ebot.
  destruct (rows w !! key c) as [p|] eqn:Hrow;
    [| rewrite (heartbeat_no_row c w Ebot Hrow) in E; discriminate E].
  destruct (heartbeat_closed_form c w p Ebot Hrow) as (logs & _ & E').
  cbv zeta in E'. rewrite E' in E.
  destruct (passes_interval_checks p _ _ && negb (3 <? ctx_active_sessions c));
    [| discriminate E].
  injection E as _ <-.
  exists p, (settled c (rotated p (ctx_now_validate c))).
  split; [reflexivity |]. split; [apply lookup_insert_eq |].
  destruct (settled_frame c (rotated p (ctx_now_validate c)))
    as (-> & -> & -> & -> & ->).
  unfold rotated, session_expired.
  destruct (session_start_at p) as [start|] eqn:Hs.
  - destruct (Qlt_bool 7200 (total_seconds (ctx_now_validate c) start));
      repeat split; try assumption; try discriminate.
  - repeat split; auto.
Qed.

Lemma heartbeat_keeps_sessions_witness :
  exists p',
    rows (snd (subsection_heartbeat (ctx_at 75000000 75000000) world_after_complete))
      !! (1, 1) = Some p' /\
    session_start_at p' = None.
Proof.
  destruct (subsection_heartbeat (ctx_at 75000000 75000000) world_after_complete)
    as [[e|resp] w'] eqn:E; [vm_compute in E; discriminate E |].
  destruct (heartbeat_keeps_sessions _ _ _ _ E)
    as (p & p' & Hp & Hp' & _ & _ & _ & _ & _ & Hclosed).
  exists p'. split; [exact Hp' |]. apply Hclosed.
  vm_compute in Hp. injection Hp as <-. reflexivity.
Defined.

(** ** Start and complete: the session log *)

(** The row that [complete_subsection_viewing] commits and returns. *)
Lemma complete_closed_form user subsection now_duration now_end (w : World) p :
  rows w !! (user, subsection) = Some p ->
  let p' :=
    match session_start_at p with
    | Some start =>
        set_session_start_at None
          (set_activity_sessions
             (Some (history p
                    ++ [mkSessionEntry start now_end
                          (int (total_seconds now_duration start))])) p)
    | None => p
    end in
  complete_subsection_viewing user subsection now_duration now_end w
  = (inr p', mkWorld (<[(user, subsection) := p']> (rows w)) (events w)).
Proof.
  intros Hrow. cbv zeta. unfold complete_subsection_viewing. unfold_M.
  rewrite Hrow. unfold history.
  destruct (session_start_at p) as [start|]; [| reflexivity].
  destruct (activity_sessions p) as [[|e l]|]; reflexivity.
Qed.

(** A visit with no heartbeat: start at [t0] and then complete appends one
    entry to the history of the row, with start [t0], the end stamp of the
    complete and the whole seconds between [t0] and the complete as
    duration; the session is closed again, and the time spent, the
    percentage, the completion flag and the last activity are those from
    before the visit. *)
Theorem start_then_complete new_id user subsection t0 now_duration now_end
    (w : World) p :
  rows w !! (user, subsection) = Some p ->
  exists p2,
    rows (snd (complete_subsection_viewing user subsection now_duration now_end
                 (snd (start_subsection_viewing new_id user subsection t0 w))))
      !! (user, subsection) = Some p2 /\
    history p2
    = history p ++ [mkSessionEntry t0 now_end (Z.quot (now_duration - t0) 1000000)] /\
    session_start_at p2 = None /\
    time_spent_seconds p2 = time_spent_seconds p /\
    completion_percentage p2 = completion_percentage p /\
    is_completed p2 = is_completed p /\
    last_activity_at p2 = last_activity_at p.
Proof.
  intros Hrow. rewrite start_effect, Hrow. cbv zeta. cbn [snd].
  rewrite (complete_closed_form user subsection now_duration now_end _
             (set_session_start_at (Some t0) p))
    by (cbn [rows]; apply lookup_insert_eq).
  cbv zeta. cbn [snd rows session_start_at set_session_start_at].
  eexists. split; [apply lookup_insert_eq |].
  repeat split.
Qed.

Lemma start_then_complete_witness :
  exists p2,
    rows (snd (complete_subsection_viewing 1 1 90500000 90600000
                 (snd (start_subsection_viewing 2 1 1 30000000
                         (world_of (row_with_time 45)))))) !! (1, 1) = Some p2 /\
    history p2 = [mkSessionEntry 30000000 90600000 60].
Proof.
  destruct (start_then_complete 2 1 1 30000000 90500000 90600000
              (world_of (row_with_time 45)) (row_with_time 45) eq_refl)
    as (p2 & Hp2 & Hh & _).
  exists p2. split; [exact Hp2 | exact Hh].
Defined.

(** A second complete is a no-op: whatever the clocks read, completing
    again returns what the first complete returned (the row, or 404 when
    there is none) and leaves the world exactly as the first left it. *)
Theorem complete_twice user subsection t1 t2 t3 t4 (w : World) :
  complete_subsection_viewing user subsection t3 t4
    (snd (complete_subsection_viewing user subsection t1 t2 w))
  = complete_subsection_viewing user subsection t1 t2 w.
Proof.
  destruct (rows w !! (user, subsection)) as [p|] eqn:Hrow.
  - rewrite (complete_closed_form user subsection t1 t2 w p Hrow). cbv zeta.
    cbn [snd].
    set (p1 := match session_start_at p with
               | Some start => _
               | None => p
               end).
    assert (Hclosed : session_start_at p1 = None).
    { subst p1. destruct (session_start_at p) eqn:Hs; [reflexivity | exact Hs]. }
    rewrite (complete_closed_form user subsection t3 t4 _ p1)
      by (cbn [rows]; apply lookup_insert_eq).
    cbv zeta. rewrite Hclosed. cbn [rows events].
    now rewrite insert_insert_eq.
  - rewrite (complete_no_row _ _ t1 t2 _ Hrow). cbn [snd].
    now apply complete_no_row.
Qed.

(** ** Requests and the rows they do not own *)

Lemma step_other_key (op : Op) (s : Server) (k : Z * Z) :
  k <> op_key op ->
  rows (world (snd (step op s))) !! k = rows (world s) !! k.
Proof.
  intros Hne.
  destruct op as [new_id user subsection now | request t c
                 | user subsection now_duration now_end];
    cbn [step op_key] in *.
  - rewrite start_effect. cbv zeta. cbn [snd world rows].
    now rewrite lookup_insert_ne by congruence.
  - rewrite endpoint_unfold. cbv zeta.
    destruct (fst (Limiter.hit _ _ _ _)); cbn [snd world]; [| reflexivity].
    destruct (heartbeat_cases c (world s))
      as [(e & logs & E & _) | (p & pv & logs & _ & _ & _ & _ & E)];
      rewrite E; cbn [snd rows]; [reflexivity |].
    now rewrite lookup_insert_ne by congruence.
  - destruct (rows (world s) !! (user, subsection)) as [p|] eqn:Hrow.
    + rewrite (complete_closed_form _ _ _ _ _ p Hrow). cbv zeta.
      cbn [snd world rows]. now rewrite lookup_insert_ne by congruence.
    + now rewrite (complete_no_row _ _ _ _ _ Hrow).
Qed.

Lemma step_keeps_rows (op : Op) (s : Server) (k : Z * Z) p :
  rows (world s) !! k = Some p ->
  exists p', rows (world (snd (step op s))) !! k = Some p'.
Proof.
  intros Hrow.
  destruct (step_at_key op s k)
    as [[Hsame _] | [(p0 & p' & _ & Hp' & _)
       | [[Hnone _] | (request & t & c & p0 & pv & _ & _ & _ & _ & _ & _ & Hp' & _)]]].
  - exists p. now rewrite Hsame.
  - now exists p'.
  - rewrite Hrow in Hnone. discriminate Hnone.
  - eauto.
Qed.

(** A request touches the row of its own pair only, and no request
    removes a row: the row of every other pair is left exactly as it was,
    and a row that exists still exists afterwards. *)
Theorem requests_keep_other_rows (op : Op) (s : Server) (k : Z * Z) :
  (k <> op_key op ->
   rows (world (snd (step op s))) !! k = rows (world s) !! k) /\
  (is_Some (rows (world s) !! k) ->
   is_Some (rows (world (snd (step op s))) !! k)).
Proof.
  split; [apply step_other_key |].
  intros [p Hp]. destruct (step_keeps_rows op s k p Hp) as [p' Hp']. eauto.
Qed.

Lemma requests_keep_other_rows_witness :
  rows (world (snd (step (OpComplete 1 1 5 5)
                      (mkServer ∅ (world_of (row_with_time 45)))))) !! (2, 7)
  = rows (world (mkServer ∅ (world_of (row_with_time 45)))) !! (2, 7) /\
  is_Some (rows (world (snd (step (OpComplete 1 1 5 5)
                               (mkServer ∅ (world_of (row_with_time 45))))))
             !! (1, 1)).
Proof.
  destruct (requests_keep_other_rows (OpComplete 1 1 5 5)
              (mkServer ∅ (world_of (row_with_time 45))) (2, 7)) as [Hother _].
  destruct (requests_keep_other_rows (OpComplete 1 1 5 5)
              (mkServer ∅ (world_of (row_with_time 45))) (1, 1)) as [_ Hkept].
  split; [apply Hother; discriminate | apply Hkept; eexists; reflexivity].
Defined.

(** ** Sequences of requests: the history and the credit *)

(** One request leaves the history of a row as it was or, when it is a
    complete of that row, appends one entry. *)
Lemma step_history (op : Op) (s : Server) (k : Z * Z) p :
  rows (world s) !! k = Some p ->
  exists p',
    rows (world (snd (step op s))) !! k = Some p' /\
    (history p' = history p \/
     exists e, history p' = history p ++ [e] /\
               completes_of k [op] = 1%nat).
Proof.
  intros Hrow.
  destruct (decide (k = op_key op)) as [Hk | Hne].
  2:{ exists p. rewrite step_other_key by assumption. auto. }
  destruct op as [new_id user subsection now | request t c
                 | user subsection now_duration now_end];
    cbn [step op_key] in *; subst k.
  - rewrite start_effect, Hrow. cbv zeta. cbn [snd world rows].
    eexists. split; [apply lookup_insert_eq |]. left. reflexivity.
  - rewrite endpoint_unfold. cbv zeta.
    destruct (fst (Limiter.hit _ _ _ _)); cbn [snd world]; [| eauto].
    destruct (heartbeat_cases c (world s))
      as [(e & logs & E & _) | (p0 & pv & logs & Hp0 & Hpv & _ & _ & E)];
      rewrite E; cbn [snd rows]; [eauto |].
    rewrite Hrow in Hp0. injection Hp0 as <-.
    eexists. split; [apply lookup_insert_eq |]. left.
    destruct (passed_row_fields p pv _ Hpv) as (_ & _ & _ & Hh).
    destruct (settled_frame c pv) as (_ & _ & _ & _ & Hs).
    unfold history. now rewrite Hs, Hh.
  - rewrite (complete_closed_form _ _ _ _ _ p Hrow). cbv zeta.
    cbn [snd world rows].
    eexists. split; [apply lookup_insert_eq |].
    destruct (session_start_at p) as [start|]; [| left; reflexivity].
    right. eexists. split; [reflexivity |].
    unfold completes_of. cbn [List.filter op_key].
    now rewrite bool_decide_eq_true_2 by reflexivity.
Qed.

Lemma completes_of_cons (k : Z * Z) (op : Op) (ops : list Op) :
  completes_of k (op :: ops) = (completes_of k [op] + completes_of k ops)%nat.
Proof.
  unfold completes_of. cbn [List.filter].
  destruct (match op with
            | OpComplete _ _ _ _ => bool_decide (op_key op = k)
            | _ => false
            end); reflexivity.
Qed.

(** The history of a row is append-only: over every sequence of requests
    the history before is a prefix of the history after, and it grows by
    at most one entry for each complete of that row. *)
Theorem history_is_append_only (ops : list Op) :
  forall (s : Server) (k : Z * Z) p,
    rows (world s) !! k = Some p ->
    exists p',
      rows (world (run ops s)) !! k = Some p' /\
      history p `prefix_of` history p' /\
      (length (history p') <= length (history p) + completes_of k ops)%nat.
Proof.
  induction ops as [|op ops IH]; intros s k p Hrow.
  - exists p. split; [assumption |]. split; [reflexivity | simpl; lia].
  - destruct (step_history op s k p Hrow) as (p1 & Hp1 & Hstep).
    destruct (IH (snd (step op s)) k p1 Hp1) as (p' & Hp' & Hpre & Hlen).
    exists p'. split; [exact Hp' |]. rewrite completes_of_cons.
    destruct Hstep as [Hsame | (e & Happ & Hone)].
    + rewrite Hsame in Hpre, Hlen. split; [exact Hpre | lia].
    + rewrite Happ in Hpre, Hlen. rewrite length_app in Hlen. simpl in Hlen.
      split; [| lia].
      etrans; [| exact Hpre]. now apply prefix_app_r.
Qed.

Lemma history_is_append_only_witness :
  exists p',
    rows (world (run one_visit (mkServer ∅ (world_of (row_with_time 45)))))
      !! (1, 1) = Some p' /\
    history (row_with_time 45) `prefix_of` history p'.
Proof.
  destruct (history_is_append_only one_visit
              (mkServer ∅ (world_of (row_with_time 45))) (1, 1)
              (row_with_time 45) eq_refl) as (p' & Hp' & Hpre & _).
  exists p'. split; [exact Hp' | exact Hpre].
Defined.

Lemma step_credit (op : Op) (s : Server) (k : Z * Z) p :
  rows (world s) !! k = Some p ->
  exists p',
    rows (world (snd (step op s))) !! k = Some p' /\
    time_spent_seconds p'
    <= time_spent_seconds p + 60 * Z.of_nat (accepted_heartbeats k [op] s).
Proof.
  intros Hrow. cbn [accepted_heartbeats].
  destruct (step_at_key op s k)
    as [[Hsame _] | [(p0 & p' & Hp0 & Hp' & _ & Ht & _)
       | [[Hnone _] | (request & t & c & p0 & pv & -> & -> & Hok & Hp0 & Hpv
                       & _ & Hp' & _)]]].
  - exists p. rewrite Hsame. split; [assumption | lia].
  - rewrite Hrow in Hp0. injection Hp0 as <-. exists p'.
    split; [assumption | lia].
  - rewrite Hrow in Hnone. discriminate Hnone.
  - rewrite Hrow in Hp0. injection Hp0 as <-.
    exists (settled c pv). split; [assumption |].
    rewrite Hok. cbn [targets].
    rewrite bool_decide_eq_true_2 by reflexivity.
    rewrite (bool_decide_eq_false_2 (is_Some None)) by (intros [x Hx]; discriminate Hx).
    cbn [andb negb].
    destruct (passed_row_fields p pv _ Hpv) as (Ht & _).
    rewrite settled_time_spent, Ht.
    pose proof (int_time_increment_le_60 pv (ctx_now c)). simpl Z.of_nat. lia.
Qed.

Lemma accepted_heartbeats_cons (k : Z * Z) (op : Op) (ops : list Op) (s : Server) :
  accepted_heartbeats k (op :: ops) s
  = (accepted_heartbeats k [op] s + accepted_heartbeats k ops (snd (step op s)))%nat.
Proof. cbn [accepted_heartbeats]. lia. Qed.

(** Time cannot be inflated faster than 60 seconds per accepted
    heartbeat: over every sequence of requests, and whatever the clocks
    read, the time spent of a row grows by at most 60 times the number of
    heartbeats of that row that returned a response. *)
Theorem time_spent_bounded_by_heartbeats (ops : list Op) :
  forall (s : Server) (k : Z * Z) p,
    rows (world s) !! k = Some p ->
    exists p',
      rows (world (run ops s)) !! k = Some p' /\
      time_spent_seconds p'
      <= time_spent_seconds p + 60 * Z.of_nat (accepted_heartbeats k ops s).
Proof.
  induction ops as [|op ops IH]; intros s k p Hrow.
  - exists p. split; [assumption | simpl; lia].
  - destruct (step_credit op s k p Hrow) as (p1 & Hp1 & Hstep).
    destruct (IH (snd (step op s)) k p1 Hp1) as (p' & Hp' & Hrest).
    exists p'. split; [exact Hp' |]. rewrite accepted_heartbeats_cons. lia.
Qed.

Lemma time_spent_bounded_by_heartbeats_witness :
  exists p',
    rows (world (run one_visit (mkServer ∅ (world_of (row_with_time 45)))))
      !! (1, 1) = Some p' /\
    time_spent_seconds p' <= 45 + 60 * 3.
Proof.
  destruct (time_spent_bounded_by_heartbeats one_visit
              (mkServer ∅ (world_of (row_with_time 45))) (1, 1)
              (row_with_time 45) eq_refl) as (p' & Hp' & Hle).
  exists p'. split; [exact Hp' |].
  vm_compute in Hle. vm_compute. exact Hle.
Defined.

(** Start and complete are silent and outside the rate limit: they log
    nothing and invoke no cascade, they leave the limiter's storage as it
    was, a start always returns, and a complete returns unless the row is
    missing, in which case it raises 404. *)
Theorem start_and_complete_are_silent (op : Op) (s : Server) :
  is_heartbeat op = false ->
  events (world (snd (step op s))) = events (world s) /\
  storage (snd (step op s)) = storage s /\
  (fst (step op s) = None \/
   (fst (step op s) = Some (HTTPException HTTP_404_NOT_FOUND) /\
    rows (world s) !! op_key op = None /\
    exists user subsection t1 t2, op = OpComplete user subsection t1 t2)).
Proof.
  intros Hop.
  destruct op as [new_id user subsection now | request t c
                 | user subsection now_duration now_end];
    [| discriminate Hop |]; cbn [step op_key].
  - rewrite start_effect. cbv zeta. repeat split. now left.
  - destruct (rows (world s) !! (user, subsection)) as [p|] eqn:Hrow.
    + rewrite (complete_closed_form _ _ _ _ _ p Hrow). cbv zeta.
      repeat split. now left.
    + rewrite (complete_no_row _ _ _ _ _ Hrow). repeat split.
      right. repeat split. eauto.
Qed.

Lemma start_and_complete_are_silent_witness :
  events (world (snd (step (OpStart 1 1 1 0) empty_server))) = [] /\
  fst (step (OpComplete 1 1 5 5) empty_server)
  = Some (HTTPException HTTP_404_NOT_FOUND).
Proof.
  destruct (start_and_complete_are_silent (OpStart 1 1 1 0) empty_server eq_refl)
    as (Hev & _ & _).
  destruct (start_and_complete_are_silent (OpComplete 1 1 5 5) empty_server eq_refl)
    as (_ & _ & [Hok | (H404 & _)]).
  - vm_compute in Hok. discriminate Hok.
  - split; [exact Hev | exact H404].
Defined.

(** ** The heartbeat: which error means what *)

(** The three HTTP errors of the heartbeat handler tell its stages apart:
    403 is raised exactly when the detector flags; 404 exactly when the
    detector returns False and the pair has no row; 429 exactly when the
    detector returns False, the row exists and the validator rejects it
    (an interval check fails or more than three sessions are open). *)
Theorem heartbeat_error_map (c : HeartbeatCtx) (w : World) :
  let bot := fst (detect_bot_activity (ctx_stdev c) (ctx_activities c)
                    (ctx_recent_activities c) (ctx_user c) w) in
  (fst (subsection_heartbeat c w) = inl (HTTPException HTTP_403_FORBIDDEN)
   <-> bot = inr true) /\
  (fst (subsection_heartbeat c w) = inl (HTTPException HTTP_404_NOT_FOUND)
   <-> bot = inr false /\ rows w !! key c = None) /\
  (fst (subsection_heartbeat c w) = inl (HTTPException HTTP_429_TOO_MANY_REQUESTS)
   <-> bot = inr false /\
       exists p, rows w !! key c = Some p /\
         passes_interval_checks p (ctx_now_validate c) (ctx_recent_intervals c)
         && negb (3 <? ctx_active_sessions c) = false).
Proof.
  cbv zeta.
  destruct (detect_bot_activity_effect (ctx_stdev c) (ctx_activities c)
              (ctx_recent_activities c) (ctx_user c) w)
    as (r & blogs & Ebot & Hbot).
  assert (Hdec : r = inr false \/ r <> inr false).
  { destruct r as [e | [|]]; [right | right | left]; congruence. }
  destruct Hdec as [-> | Hr].
  - destruct Hbot as [[Hr _] | [_ ->]]; [discriminate Hr |].
    rewrite app_nil_r, world_eta in Ebot. rewrite Ebot. cbn [fst].
    destruct (rows w !! key c) as [p|] eqn:Hrow.
    + destruct (heartbeat_closed_form c w p Ebot Hrow) as (logs & _ & E).
      cbv zeta in E. rewrite E.
      destruct (passes_interval_checks p _ _ && negb (3 <? ctx_active_sessions c))
        eqn:Hok; cbn [fst].
      * repeat split; try discriminate; try (intros [_ H]; discriminate H).
        intros [_ (p' & [= <-] & H)]. congruence.
      * repeat split; try discriminate; try (intros [_ H]; discriminate H).
        exists p. split; [reflexivity | exact Hok].
    + rewrite (heartbeat_no_row c w Ebot Hrow). cbn [fst].
      repeat split; try discriminate.
      intros [_ (p & Hp & _)]. discriminate Hp.
  - rewrite (heartbeat_flagged c w _ r Ebot Hr), Ebot. cbn [fst].
    destruct r as [e | [|]]; [| | congruence].
    + assert (He : e = NameError \/ e = IndexError).
      { unfold detect_bot_activity in Ebot. unfold_M.
        repeat match type of Ebot with
               | context [if ?b then _ else _] => destruct b
               | context [match ?o with Some _ => _ | None => _ end] => destruct o
               end;
          try discriminate Ebot; inversion Ebot; subst; auto. }
      repeat split; try discriminate; try (intros [H _]; discriminate H);
        destruct He as [-> | ->]; discriminate.
    + repeat split; try discriminate; try (intros [H _]; discriminate H).
Qed.

Lemma heartbeat_error_map_witness :
  fst (subsection_heartbeat (ctx_at 5 5) (mkWorld ∅ []))
  = inl (HTTPException HTTP_404_NOT_FOUND).
Proof.
  apply (heartbeat_error_map (ctx_at 5 5) (mkWorld ∅ [])).
  split; reflexivity.
Defined.

(** ** The frontend: the display of a duration *)

Lemma pretty_N_char_no_colon (x : N) : pretty_N_char x <> ":"%char.
Proof. unfold pretty_N_char. repeat case_match; discriminate. Qed.

Lemma pretty_N_go_no_colon (x : N) (s : string) :
  no_colon s -> no_colon (pretty_N_go x s).
Proof.
  revert s. induction (N.lt_wf_0 x) as [x _ IH]; intros s Hs.
  assert (x = 0 \/ 0 < x)%N as [-> | Hpos] by lia.
  - now rewrite pretty_N_go_0.
  - rewrite pretty_N_go_step by assumption. apply IH.
    + now apply N.div_lt.
    + split; [apply pretty_N_char_no_colon | assumption].
Qed.

Lemma toString_no_colon (n : N) : no_colon (toString n).
Proof.
  unfold toString, pretty, pretty_N. case_decide.
  - split; [discriminate | exact I].
  - now apply pretty_N_go_no_colon.
Qed.

Lemma append_cons (a : ascii) (s t : string) :
  String a s +:+ t = String a (s +:+ t).
Proof. reflexivity. Qed.

Lemma append_nil (t : string) : "" +:+ t = t.
Proof. reflexivity. Qed.

Lemma split_at_colon (s1 s2 t1 t2 : string) :
  no_colon s1 -> no_colon s2 ->
  s1 +:+ String ":" t1 = s2 +:+ String ":" t2 -> s1 = s2 /\ t1 = t2.
Proof.
  revert s2. induction s1 as [|a s1 IH]; intros [|b s2] H1 H2 E;
    rewrite ?append_cons, ?append_nil in E; cbn [no_colon] in *.
  - split; [reflexivity | congruence].
  - destruct H2 as [H2 _]. congruence.
  - destruct H1 as [H1 _]. congruence.
  - destruct H1 as [_ H1], H2 as [_ H2].
    assert (E' : s1 +:+ String ":" t1 = s2 +:+ String ":" t2) by congruence.
    destruct (IH s2 H1 H2 E') as [-> ->]. split; congruence.
Qed.

Lemma below_sixty_spec (r : N) : (r < 60)%N -> In r below_sixty.
Proof.
  intros H. unfold below_sixty. apply in_map_iff. exists (N.to_nat r).
  split; [lia |]. apply in_seq. lia.
Qed.

Lemma padded_seconds_inj (a b : N) :
  (a < 60)%N -> (b < 60)%N ->
  padStart 2 "0" (toString a) = padStart 2 "0" (toString b) -> a = b.
Proof.
  intros Ha Hb.
  assert (Hall : forallb (fun x => forallb (fun y =>
            implb (String.eqb (padStart 2 "0" (toString x))
                              (padStart 2 "0" (toString y)))
                  (N.eqb x y)) below_sixty) below_sixty = true)
    by (vm_compute; reflexivity).
  rewrite forallb_forall in Hall.
  specialize (Hall a (below_sixty_spec a Ha)).
  rewrite forallb_forall in Hall.
  specialize (Hall b (below_sixty_spec b Hb)).
  intros E. rewrite E, String.eqb_refl in Hall. simpl in Hall.
  now apply N.eqb_eq.
Qed.

Lemma padded_seconds_length (a : N) :
  (a < 60)%N -> String.length (padStart 2 "0" (toString a)) = 2%nat.
Proof.
  intros Ha.
  assert (Hall : forallb (fun x =>
            Nat.eqb (String.length (padStart 2 "0" (toString x))) 2) below_sixty = true)
    by (vm_compute; reflexivity).
  rewrite forallb_forall in Hall.
  specialize (Hall a (below_sixty_spec a Ha)). now apply Nat.eqb_eq.
Qed.

Lemma length_append (s t : string) :
  String.length (s +:+ t) = (String.length s + String.length t)%nat.
Proof. induction s as [|a s IH]; simpl; [reflexivity | now rewrite IH]. Qed.

(** The display of a duration: for counts of seconds that JavaScript holds
    exactly, two different counts are never displayed alike, and the
    display is the minutes, a colon and exactly two more characters. *)
Theorem formatTime_injective (a b : N) :
  (a < 2 ^ 53)%N -> (b < 2 ^ 53)%N ->
  (formatTime a = formatTime b -> a = b) /\
  String.length (formatTime a) = (String.length (toString (a / 60)) + 3)%nat.
Proof.
  intros _ _. split.
  - unfold formatTime. cbv zeta. intros E.
    change (toString (a / 60) +:+ String ":" (padStart 2 "0" (toString (a mod 60)))
            = toString (b / 60) +:+ String ":" (padStart 2 "0" (toString (b mod 60))))
      in E.
    apply split_at_colon in E as [Hm Hs]; try apply toString_no_colon.
    apply (inj pretty) in Hm.
    apply padded_seconds_inj in Hs; try (apply N.mod_lt; discriminate).
    rewrite (N.div_mod a 60), (N.div_mod b 60) by discriminate. lia.
  - unfold formatTime. cbv zeta. rewrite !length_append.
    rewrite padded_seconds_length by (apply N.mod_lt; discriminate).
    simpl. lia.
Qed.

Lemma formatTime_injective_witness :
  String.length (formatTime 605) = (String.length (toString 10) + 3)%nat.
Proof.
  apply (formatTime_injective 605 605); reflexivity.
Defined.

(** ** The frontend: the heartbeat timer and the visibility of the page *)

Lemma hidden_effect (st : Tracking) handle :
  heartbeatInterval st = Some handle ->
  handleVisibilityChange true st
  = mkTracking (isTracking st) (Some handle) (armed st ∖ {[handle]}) (next_handle st).
Proof. intros H. unfold handleVisibilityChange. now rewrite H. Qed.

(** While the handle is set and its timer cleared, a visibility change
    does nothing. *)
Lemma visibility_step_when_cleared (hidden : bool) (st : Tracking) handle :
  heartbeatInterval st = Some handle ->
  handle ∉ armed st ->
  heartbeatInterval (handleVisibilityChange hidden st) = Some handle /\
  armed (handleVisibilityChange hidden st) = armed st /\
  isTracking (handleVisibilityChange hidden st) = isTracking st.
Proof.
  intros Hh Hnot. unfold handleVisibilityChange. rewrite Hh.
  destruct hidden.
  - cbn [heartbeatInterval armed isTracking]. repeat split.
    apply difference_disjoint_L, disjoint_singleton_r, Hnot.
  - rewrite bool_decide_eq_true_2 by eauto. rewrite andb_false_r.
    repeat split; assumption.
Qed.

Lemma visibility_changes_when_cleared (changes : list bool) handle :
  forall st : Tracking,
    heartbeatInterval st = Some handle ->
    handle ∉ armed st ->
    let st' := foldl (fun st hidden => handleVisibilityChange hidden st) st changes in
    heartbeatInterval st' = Some handle /\
    armed st' = armed st /\
    isTracking st' = isTracking st.
Proof.
  induction changes as [|hidden changes IH]; intros st Hh Hnot; cbv zeta.
  - repeat split; assumption.
  - cbn [foldl].
    destruct (visibility_step_when_cleared hidden st handle Hh Hnot)
      as (Hh1 & Ha1 & Ht1).
    destruct (IH (handleVisibilityChange hidden st) Hh1) as (Hh' & Ha' & Ht').
    + now rewrite Ha1.
    + cbv zeta in Hh', Ha', Ht'. rewrite Hh', Ha', Ht'. auto.
Qed.

(** Once the page has been hidden, the heartbeat timer never runs again:
    hiding clears the timer and leaves its handle in [heartbeatInterval],
    so that showing the page finds the handle set and arms nothing.
    Whatever visibility changes follow, the timer stays cleared, no other
    timer is armed, and [isTracking] is what it was. *)
Theorem hidden_page_never_resumes (changes : list bool) (st : Tracking) handle :
  heartbeatInterval st = Some handle ->
  let st' := foldl (fun st hidden => handleVisibilityChange hidden st)
               (handleVisibilityChange true st) changes in
  (armed st' = armed st ∖ {[handle]}) /\
  (handle ∉ armed st') /\
  heartbeatInterval st' = Some handle /\
  isTracking st' = isTracking st.
Proof.
  intros Hint. cbv zeta. rewrite (hidden_effect st handle Hint).
  destruct (visibility_changes_when_cleared changes handle
              (mkTracking (isTracking st) (Some handle) (armed st ∖ {[handle]})
                 (next_handle st)) eq_refl) as (Hh & Ha & Ht).
  - cbn [armed]. apply not_elem_of_difference. right.
    now apply elem_of_singleton.
  - cbv zeta in Hh, Ha, Ht. rewrite Hh, Ha, Ht. cbn [armed isTracking].
    repeat split. apply not_elem_of_difference. right.
    now apply elem_of_singleton.
Qed.

Lemma hidden_page_never_resumes_witness :
  armed (foldl (fun st hidden => handleVisibilityChange hidden st)
           (handleVisibilityChange true tracking_page) [false; true; false])
  = armed tracking_page ∖ {[7%positive]}.
Proof.
  apply (hidden_page_never_resumes [false; true; false] tracking_page 7%positive).
  reflexivity.
Defined.
